(** * pz-battlesnake: the PettingZoo adapter [BaseEnv] and the [Move] space

    The repository adapts a Battlesnake rules engine to the parallel
    multi-agent environment interface.  The adapter lives in
    [pz_battlesnake/env/base_env.py] and [pz_battlesnake/spaces/move.py];
    the engine sits behind the four entry points [env_reset], [env_step],
    [env_done] and [env_render] of [pz_battlesnake.wrapper].

    Python objects are embedded as records, dictionaries as [gmap string],
    exceptions as the [Raise] outcome of a state-and-exception monad whose
    state survives a raised exception (as attribute writes do in Python). *)

From stdpp Require Import gmap strings list fin_maps pretty.
From Stdlib Require Import ZArith.

Local Open Scope string_scope.
Local Open Scope Z_scope.

(** ** Values and exceptions *)

(** The Python values that reach [Move.contains] in this code base: encoded
    moves are integers, the retired encoding used the strings "up", "down",
    "left", "right", and [None] marks an agent that is already dead. *)
Inductive value :=
| VInt (z : Z)
| VStr (s : string)
| VNone.

Global Instance value_eq_dec : EqDecision value.
Proof. solve_decision. Defined.

(** Exceptions raised by the adapter itself, and the two engine errors that
    the specification lets propagate to the caller. *)
Inductive Error :=
| AssertionError (msg : string)
| AttributeError (attr : string)
| IndexError
| MissingMove
| InvalidConfiguration.

Inductive outcome (A : Type) :=
| Ok (a : A)
| Raise (e : Error).
Arguments Ok {A} a.
Arguments Raise {A} e.

(** ** gymnasium spaces *)

(** [spaces.Discrete(n)] is the integer range [start, start + n) with
    [start = 0] by default; [spaces.Dict(...)] is a keyed product of
    sub-spaces, and [spaces.Dict()] has none. *)
#[warnings="-register-all"]
Inductive Space :=
| Discrete (n start : Z)
| Dict (fields : list (string * Space)).

(** [Discrete.contains]: only integers can be members. *)
Definition discrete_contains (n start : Z) (x : value) : bool :=
  match x with
  | VInt z => bool_decide (start ≤ z < start + n)
  | _ => false
  end.

Definition space_keys (sp : Space) : list string :=
  match sp with
  | Discrete _ _ => []
  | Dict fields => fields.*1
  end.

(** A space that describes the snapshot of the specification declares a
    field for the board, one for the snakes and one for the turn. *)
Definition describes_snapshot (sp : Space) : Prop :=
  ∃ board snakes turn,
    NoDup [board; snakes; turn]
    ∧ board ∈ space_keys sp ∧ snakes ∈ space_keys sp ∧ turn ∈ space_keys sp.

(** ** [pz_battlesnake/spaces/move.py] *)

Module Move.

Definition possible_moves : list Z := [0; 1; 2; 3].

(** An instance of [Move]: its own [moves] attribute and the attributes
    set by [Discrete.__init__]. *)
Record t := { moves : list Z; n : Z; start : Z }.

(** [__init__]: [self.moves = self.possible_moves] and then
    [super().__init__(len(self.moves))]. *)
Definition init : t :=
  let moves := possible_moves in
  {| moves := moves; n := Z.of_nat (length moves); start := 0 |}.

(** [contains] defers to [Discrete.contains]. *)
Definition contains (self : t) (x : value) : bool :=
  discrete_contains (n self) (start self) x.

(** The space as gymnasium sees it. *)
Definition as_space (self : t) : Space := Discrete (n self) (start self).

Definition repr (self : t) : string := "Move()".

End Move.

(** ** The engine behind [pz_battlesnake.wrapper] *)

(** [BattlesnakeOptions] as [BaseEnv.__init__] builds it, with the [seed]
    attribute that [reset] assigns.  Its [options] property hands these
    settings to the engine; the engine reads them as a record here. *)
Record BattlesnakeOptions := {
  width : Z;
  height : Z;
  colors : list string;
  game_map : string;
  game_type : string;
  names : list string;
  seed : option Z;
}.

Definition set_seed (s : option Z) (o : BattlesnakeOptions) : BattlesnakeOptions :=
  {| width := width o; height := height o; colors := colors o;
     game_map := game_map o; game_type := game_type o; names := names o;
     seed := s |}.

(** What the engine reports for one agent after a turn:
    [agents[agent]["observation"]], ["reward"], ["done"] and ["info"]. *)
Record AgentResult (Obs Rew Info : Type) := {
  observation : Obs;
  reward : Rew;
  done : bool;
  info : Info;
}.
Arguments observation {Obs Rew Info} _.
Arguments reward {Obs Rew Info} _.
Arguments done {Obs Rew Info} _.
Arguments info {Obs Rew Info} _.

(** The four entry points the adapter imports and calls.  [ES] is
    everything the engine holds between calls, including whatever
    entropy it would draw for an unseeded game.  [env_reset] and
    [env_step] may raise and change the engine; [env_done] is a query and
    [env_render] produces the text that is printed. *)
Record Engine := {
  ES : Type;
  Obs : Type;
  Rew : Type;
  Info : Type;
  MoveV : Type;
  env_reset : BattlesnakeOptions → ES → outcome (gmap string Obs) * ES;
  env_step : gmap string MoveV → ES
             → outcome (gmap string (AgentResult Obs Rew Info)) * ES;
  env_done : ES → bool;
  env_render : bool → ES → string;
}.

(** ** [pz_battlesnake/env/base_env.py] *)

(** The attributes of a [BaseEnv] object.  [agents] is not assigned by
    [__init__]: it exists only once [reset] or [step] has written it. *)
Record BaseEnv := {
  possible_agents : list string;
  agent_name_mapping : gmap string nat;
  agent_selection : string;
  _options : BattlesnakeOptions;
  agents : option (list string);
}.

Definition render_modes : list string := ["human"; "ascii"; "color"].

(** [BaseEnv.__init__]; [DEFAULT_COLORS] is the caller's [colors]. *)
Definition init (width height num_agents : Z) (colors : list string)
    (game_map game_type : string) : outcome BaseEnv :=
  let possible_agents :=
    (λ i : nat, "agent_" +:+ pretty i) <$> seq 0 (Z.to_nat num_agents) in
  let agent_name_mapping : gmap string nat :=
    list_to_map (zip possible_agents (seq 0 (length possible_agents))) in
  match possible_agents !! 0%nat with
  | None => Raise IndexError
  | Some first =>
      Ok {| possible_agents := possible_agents;
            agent_name_mapping := agent_name_mapping;
            agent_selection := first;
            _options := {| width := width; height := height; colors := colors;
                           game_map := game_map; game_type := game_type;
                           names := possible_agents; seed := None |};
            agents := None |}
  end.

(** Truthiness of the [agent] argument ([None] by default). *)
Definition agent_truthy (agent : option string) : bool :=
  match agent with
  | Some s => bool_decide (s ≠ "")
  | None => false
  end.

Definition agent_valid (self : BaseEnv) (agent : option string) : bool :=
  match agent with
  | Some s => bool_decide (s ∈ possible_agents self)
  | None => false
  end.

(** [repr] of a [str], read as a sequence of code points below 256: the
    quote is the single one unless the text holds a single and no double
    quote; the quote in use and the backslash are escaped, tab, newline
    and carriage return have their letters, and the other characters
    that are not printable are written as a backslash, x and two
    lower-case hexadecimal digits. *)
Definition single_quote : Ascii.ascii := Ascii.ascii_of_nat 39.
Definition double_quote : Ascii.ascii := Ascii.ascii_of_nat 34.
Definition backslash : Ascii.ascii := Ascii.ascii_of_nat 92.

Definition hex_digit (n : N) : Ascii.ascii :=
  default (Ascii.ascii_of_nat 48)
    (String.list_ascii_of_string "0123456789abcdef" !! N.to_nat n).

Definition hex_escape (n : N) : string :=
  String backslash "x"
  +:+ String (hex_digit (n `div` 16)) (String (hex_digit (n `mod` 16)) "").

Definition unprintable (n : N) : bool :=
  bool_decide (n < 32 ∨ n = 127 ∨ 128 ≤ n ≤ 160 ∨ n = 173)%N.

Definition repr_char (quote c : Ascii.ascii) : string :=
  let n := Ascii.N_of_ascii c in
  if bool_decide (c = quote ∨ c = backslash) then String backslash (String c "")
  else if bool_decide (n = 9%N) then String backslash "t"
  else if bool_decide (n = 10%N) then String backslash "n"
  else if bool_decide (n = 13%N) then String backslash "r"
  else if unprintable n then hex_escape n
  else String c "".

Definition str_repr (s : string) : string :=
  let chars := String.list_ascii_of_string s in
  let quote :=
    if bool_decide (single_quote ∈ chars ∧ double_quote ∉ chars)
    then double_quote else single_quote in
  String quote
    (foldr (λ c rest, repr_char quote c +:+ rest) (String quote "") chars).

(** [repr] of a list of [str], which is what [format] prints for it. *)
Fixpoint join_with (sep : string) (l : list string) : string :=
  match l with
  | [] => ""
  | [x] => x
  | x :: rest => x +:+ sep +:+ join_with sep rest
  end.

Definition list_repr (l : list string) : string :=
  "[" +:+ join_with ", " (str_repr <$> l) +:+ "]".

(** ["agent must be one of {}".format(self.possible_agents)] *)
Definition unknown_agent_message (self : BaseEnv) : string :=
  "agent must be one of " +:+ list_repr (possible_agents self).

Definition observation_space (self : BaseEnv) (agent : option string)
    : outcome Space :=
  if negb (agent_truthy agent) then Raise (AssertionError "Agent must be provided")
  else if negb (agent_valid self agent)
    then Raise (AssertionError (unknown_agent_message self))
  else Ok (Dict []).

Definition action_space (self : BaseEnv) (agent : option string)
    : outcome Space :=
  if negb (agent_truthy agent) then Raise (AssertionError "Agent must be provided")
  else if negb (agent_valid self agent)
    then Raise (AssertionError (unknown_agent_message self))
  else Ok (Discrete 4 0).

(** ** The adapter's stateful methods *)

(** Calls into the engine are recorded, so that "the engine was not
    consulted" is a statement about the run. *)
Inductive Call := CallReset | CallStep | CallDone | CallRender.

Record World (E : Engine) := {
  self : BaseEnv;
  eng : ES E;
  stdout : list string;
  calls : list Call;
}.
Arguments self {E} _.
Arguments eng {E} _.
Arguments stdout {E} _.
Arguments calls {E} _.

(** A method body: it returns or raises, and leaves a world either way. *)
Definition M (W A : Type) : Type := W → outcome A * W.

Definition ret {W A} (a : A) : M W A := λ w, (Ok a, w).

Definition bind {W A B} (c : M W A) (k : A → M W B) : M W B := λ w,
  match c w with
  | (Ok a, w') => k a w'
  | (Raise e, w') => (Raise e, w')
  end.

Notation "'let*' x ':=' c 'in' k" := (bind c (λ x, k))
  (at level 10, x name, c at level 100, k at level 200).
Notation "c >> k" := (bind c (λ _, k))
  (at level 100, k at level 200, right associativity).

Definition raise {W A} (e : Error) : M W A := λ w, (Raise e, w).

(** [step] returns four dictionaries on its early exit and five otherwise;
    [reset] returns the observations alone or paired with [info = {}]. *)
Inductive StepReturn (E : Engine) :=
| Return4 (observations : gmap string (Obs E)) (rewards : gmap string (Rew E))
          (dones : gmap string bool) (infos : gmap string (Info E))
| Return5 (observations : gmap string (Obs E)) (rewards : gmap string (Rew E))
          (dones truncations : gmap string bool) (infos : gmap string (Info E)).
Arguments Return4 {E} _ _ _ _.
Arguments Return5 {E} _ _ _ _ _.

Inductive ResetReturn (E : Engine) :=
| WithInfo (observations : gmap string (Obs E)) (info : gmap string (Info E))
| Plain (observations : gmap string (Obs E)).
Arguments WithInfo {E} _ _.
Arguments Plain {E} _.

(** Attribute writes on [self], and the trace of a call that left the
    engine in state [es]. *)
Definition write_agents (l : list string) (e : BaseEnv) : BaseEnv :=
  {| possible_agents := possible_agents e;
     agent_name_mapping := agent_name_mapping e;
     agent_selection := agent_selection e;
     _options := _options e;
     agents := Some l |}.

Definition write_seed (s : option Z) (e : BaseEnv) : BaseEnv :=
  {| possible_agents := possible_agents e;
     agent_name_mapping := agent_name_mapping e;
     agent_selection := agent_selection e;
     _options := set_seed s (_options e);
     agents := agents e |}.

Definition on_self {E} (f : BaseEnv → BaseEnv) (w : World E) : World E :=
  {| self := f (self w); eng := eng w; stdout := stdout w; calls := calls w |}.

Definition logged {E} (c : Call) (es : ES E) (w : World E) : World E :=
  {| self := self w; eng := es; stdout := stdout w; calls := calls w ++ [c] |}.

Definition printed {E} (text : string) (w : World E) : World E :=
  {| self := self w; eng := eng w; stdout := stdout w ++ [text];
     calls := calls w |}.

(** What [reset] does to [self] before it calls the engine. *)
Definition prepared (stored : option Z) (e : BaseEnv) : BaseEnv :=
  write_seed stored (write_agents (possible_agents e) e).

(** Two worlds whose [agents] attribute agrees and whose engines are
    alike in the sense of [alike]. *)
Definition alike_worlds {E} (alike : ES E → ES E → Prop) (w1 w2 : World E)
    : Prop :=
  agents (self w1) = agents (self w2) ∧ alike (eng w1) (eng w2).

Section Methods.
Context {E : Engine}.

Let Result : Type := AgentResult (Obs E) (Rew E) (Info E).

(** *** Attribute reads and writes on [self] *)

Definition set_agents (l : list string) : M (World E) () := λ w,
  (Ok (), on_self (write_agents l) w).

Definition get_agents : M (World E) (list string) := λ w,
  match agents (self w) with
  | Some l => (Ok l, w)
  | None => (Raise (AttributeError "agents"), w)
  end.

Definition get_possible_agents : M (World E) (list string) := λ w,
  (Ok (possible_agents (self w)), w).

Definition set_options_seed (s : option Z) : M (World E) () := λ w,
  (Ok (), on_self (write_seed s) w).

Definition get_options : M (World E) BattlesnakeOptions := λ w,
  (Ok (_options (self w)), w).

(** *** The imported entry points, as calls *)

Definition call_env_reset (o : BattlesnakeOptions)
    : M (World E) (gmap string (Obs E)) := λ w,
  let '(r, es) := env_reset E o (eng w) in (r, logged CallReset es w).

Definition call_env_step (action : gmap string (MoveV E))
    : M (World E) (gmap string Result) := λ w,
  let '(r, es) := env_step E action (eng w) in (r, logged CallStep es w).

Definition call_env_done : M (World E) bool := λ w,
  (Ok (env_done E (eng w)), logged CallDone (eng w) w).

Definition call_env_render (colorized : bool) : M (World E) () := λ w,
  (Ok (), logged CallRender (eng w)
            (printed (env_render E colorized (eng w)) w)).

(** *** [render] *)

Definition render (mode : string) : M (World E) () :=
  if bool_decide (mode = "ascii") || bool_decide (mode = "color")
     || bool_decide (mode = "human")
  then call_env_render (if bool_decide (mode = "color") then true else false)
  else raise (AssertionError "Valid render modes are 'ascii' and 'color'").

(** *** [reset] *)

(** Truthiness of the [seed] argument: [None] and [0] are falsy. *)
Definition seed_truthy (seed : option Z) : bool :=
  match seed with
  | Some z => bool_decide (z ≠ 0)
  | None => false
  end.

Definition reset (seed : option Z) (return_info : bool)
    : M (World E) (ResetReturn E) :=
  let* possible := get_possible_agents in
  set_agents possible >>
  let info : gmap string (Info E) := ∅ in
  (if seed_truthy seed then set_options_seed seed
   else set_options_seed None) >>
  if return_info then
    let* o := get_options in
    let* obs := call_env_reset o in
    ret (WithInfo obs info)
  else
    let* o := get_options in
    let* obs := call_env_reset o in
    ret (Plain obs).

(** *** [step] *)

(** [not action]: [None] and the empty dictionary are falsy. *)
Definition falsy (action : option (gmap string (MoveV E))) : bool :=
  match action with
  | Some moves => bool_decide (moves = ∅)
  | None => true
  end.

(** The dictionary [env_step] receives once [action] passed the guard. *)
Definition moves_of (action : option (gmap string (MoveV E)))
    : gmap string (MoveV E) :=
  default ∅ action.

(** [{a: False for a in self.agents}] *)
Definition all_false (l : list string) : gmap string bool :=
  foldl (λ d a, <[a := false]> d) ∅ l.

(** The [for agent in agents] loop: one pass over the engine's
    dictionary, four assignments per agent. *)
Definition Collected : Type :=
  gmap string (Obs E) * gmap string (Rew E)
  * gmap string bool * gmap string (Info E).

Definition collect_one (acc : Collected) (kv : string * Result) : Collected :=
  let '(observations, rewards, dones, infos) := acc in
  let '(agent, r) := kv in
  (<[agent := observation r]> observations,
   <[agent := reward r]> rewards,
   <[agent := done r]> dones,
   <[agent := info r]> infos).

Definition collect (agents : gmap string Result) : Collected :=
  foldl collect_one (∅, ∅, ∅, ∅) (map_to_list agents).

Definition step (action : option (gmap string (MoveV E)))
    : M (World E) (StepReturn E) :=
  if falsy action then
    set_agents [] >>
    ret (Return4 ∅ ∅ ∅ ∅)
  else
    let* agents := call_env_step (moves_of action) in
    let* live := get_agents in
    let truncations := all_false live in
    let '(observations, rewards, dones, infos) := collect agents in
    let* finished := call_env_done in
    (if finished then set_agents [] else ret ()) >>
    ret (Return5 observations rewards dones truncations infos).

(** A session: [reset(seed=S)] followed by the steps of [M], stopping at
    the first exception as the caller's loop would. *)
Fixpoint steps (ms : list (option (gmap string (MoveV E))))
    : M (World E) (list (StepReturn E)) :=
  match ms with
  | [] => ret []
  | m :: ms' =>
      let* r := step m in
      let* rs := steps ms' in
      ret (r :: rs)
  end.

Definition session (seed : option Z) (ms : list (option (gmap string (MoveV E))))
    : M (World E) (list (StepReturn E)) :=
  reset seed true >>
  steps ms.

End Methods.

(** ** A reference engine *)

Module Reference.

(** Modelled from the spec: the rules engine behind [env_reset],
    [env_step], [env_done] and [env_render] ([pz_battlesnake.wrapper] is
    not among the sources).  Board, Snake, turn resolution and session
    follow sections 3 and 4 of the specification.  Where the
    specification leaves a policy open, the simplest one is taken and
    named: snakes start with one segment on evenly spaced cells, one
    food item is kept on the board, the reward is the snake's length,
    and the random source is a linear congruential generator. *)

Definition Coord : Type := Z * Z.

Inductive Direction := Up | Down | Left | Right.

Inductive Cause := WallCollision | BodyCollision | HeadCollision | Starvation.

Inductive Occupant :=
| Empty
| Food
| Hazard
| Segment (owner : string) (index : nat).

Global Instance Occupant_eq_dec : EqDecision Occupant.
Proof. solve_decision. Defined.

(** *** Board *)

Record Board := {
  b_width : Z;
  b_height : Z;
  cells : gmap Coord Occupant;
}.

Definition in_bounds (b : Board) (c : Coord) : bool :=
  bool_decide (0 ≤ c.1 < b_width b ∧ 0 ≤ c.2 < b_height b).

Definition occupant_at (b : Board) (c : Coord) : Occupant :=
  default Empty (cells b !! c).

(** [place]: [None] stands for InvalidCoordinate, which never leaves
    the board. *)
Definition place (c : Coord) (o : Occupant) (b : Board) : option Board :=
  if in_bounds b c then
    Some {| b_width := b_width b; b_height := b_height b;
            cells := <[c := o]> (cells b) |}
  else None.

Definition all_cells (b : Board) : list Coord :=
  y ← seqZ 0 (b_height b); x ← seqZ 0 (b_width b); [(x, y)].

Definition vacant_cells (b : Board) : list Coord :=
  filter (λ c, occupant_at b c = Empty) (all_cells b).

Definition rng_next (r : Z) : Z := (1103515245 * r + 12345) `mod` 2 ^ 31.

(** [spawn_food]: [None] stands for NoVacantCell; the caller skips the
    spawn. *)
Definition spawn_food (rng : Z) (b : Board) : option (Board * Z) :=
  let vacant := vacant_cells b in
  match vacant !! Z.to_nat (rng `mod` Z.of_nat (length vacant)) with
  | Some c => b' ← place c Food b; Some (b', rng_next rng)
  | None => None
  end.

(** *** Snake *)

Record Snake := {
  sid : string;
  body : list Coord;
  health : Z;
  alive : bool;
  cause : option Cause;
}.

Definition head (s : Snake) : Coord := default (0, 0) (body s !! 0%nat).

Definition unit_vector (d : Direction) : Coord :=
  match d with
  | Up => (0, 1)
  | Down => (0, -1)
  | Left => (-1, 0)
  | Right => (1, 0)
  end.

Definition advance (d : Direction) (s : Snake) : Coord :=
  ((head s).1 + (unit_vector d).1, (head s).2 + (unit_vector d).2).

Definition damage (amount : Z) (s : Snake) : Snake :=
  {| sid := sid s; body := body s; health := Z.max 0 (health s - amount);
     alive := alive s; cause := cause s |}.

Definition kill (c : Cause) (s : Snake) : Snake :=
  {| sid := sid s; body := body s; health := health s;
     alive := false; cause := Some c |}.

(** Step 3 of the resolution: the new head is prepended; the tail is
    kept and the health reset when the head lands on food. *)
Definition move_body (new_head : Coord) (ate : bool) (s : Snake) : Snake :=
  {| sid := sid s;
     body := new_head :: (if ate then body s else removelast (body s));
     health := if ate then 100 else health s;
     alive := alive s; cause := cause s |}.

(** *** Game session *)

Record Session := {
  turn : nat;
  snakes : list Snake;
  board : Board;
  rng : Z;
  threshold : nat;
}.

Definition living (g : Session) : list Snake :=
  filter (λ s, alive s = true) (snakes g).

Definition is_done (g : Session) : bool :=
  bool_decide (length (living g) ≤ threshold g)%nat.

(** Observation: board occupancy, each living snake's body and health,
    and the turn number. *)
Record Observation := {
  o_cells : list (Coord * Occupant);
  o_snakes : list (string * list Coord * Z);
  o_turn : nat;
}.

Definition observe (g : Session) : Observation :=
  {| o_cells := map_to_list (cells (board g));
     o_snakes := (λ s, (sid s, body s, health s)) <$> living g;
     o_turn := turn g |}.

(** *** Turn resolution *)

Definition decode (v : value) : option Direction :=
  match v with
  | VInt 0 => Some Up
  | VInt 1 => Some Down
  | VInt 2 => Some Left
  | VInt 3 => Some Right
  | _ => None
  end.

Definition move_for (moves : gmap string value) (s : Snake) : option Direction :=
  moves !! sid s ≫= decode.

(** Steps 1 to 3 for one living snake with its move. *)
Definition relocate (b : Board) (d : Direction) (s : Snake) : Snake :=
  let candidate := advance d s in
  let s := damage 1 s in
  move_body candidate (bool_decide (occupant_at b candidate = Food)) s.

(** Step 4 for one snake, judged against the positions of all snakes
    after the move. *)
Definition verdict (b : Board) (moved : list Snake) (s : Snake) : option Cause :=
  let others := filter (λ o, sid o ≠ sid s) moved in
  let rivals := filter (λ o, head o = head s) others in
  if negb (in_bounds b (head s)) then Some WallCollision
  else if bool_decide (Exists (λ o, head s ∈ tail (body o)) moved)
    then Some BodyCollision
  else if bool_decide (Exists (λ o, length (body s) ≤ length (body o))%nat rivals)
    then Some HeadCollision
  else if bool_decide (health s ≤ 0) then Some Starvation
  else None.

Definition judge (b : Board) (moved : list Snake) (s : Snake) : Snake :=
  match verdict b moved s with
  | Some c => kill c s
  | None => s
  end.

(** Step 5: occupancy rebuilt from food and hazards that were not
    eaten and from the bodies of the survivors. *)
Definition lay_snake (s : Snake) (m : gmap Coord Occupant) : gmap Coord Occupant :=
  foldr (λ ic m, <[ic.2 := Segment (sid s) ic.1]> m) m (imap pair (body s)).

Definition sync (b : Board) (survivors : list Snake) : Board :=
  let heads := head <$> survivors in
  let kept := filter (λ kv, (kv.2 = Food ∨ kv.2 = Hazard) ∧ kv.1 ∉ heads)
                     (cells b) in
  {| b_width := b_width b; b_height := b_height b;
     cells := foldr lay_snake kept survivors |}.

Definition has_food (b : Board) : bool :=
  bool_decide (Exists (λ kv, kv.2 = Food) (map_to_list (cells b))).

Definition refill (b : Board) (rng : Z) : Board * Z :=
  if has_food b then (b, rng)
  else default (b, rng) (spawn_food rng b).

Definition TurnResult : Type := AgentResult Observation Z (option Cause).

Definition resolve (moves : gmap string value) (g : Session)
    : outcome (gmap string TurnResult) * Session :=
  let alive_now := living g in
  if bool_decide (Forall (λ s, is_Some (move_for moves s)) alive_now) then
    let moved :=
      (λ s, match move_for moves s with
            | Some d => relocate (board g) d s
            | None => s
            end) <$> alive_now in
    let judged := judge (board g) moved <$> moved in
    let survivors := filter (λ s, alive s = true) judged in
    let '(b, r) := refill (sync (board g) survivors) (rng g) in
    let g' := {| turn := S (turn g); snakes := judged; board := b;
                 rng := r; threshold := threshold g |} in
    let report (s : Snake) : string * TurnResult :=
      (sid s, {| observation := observe g';
                 reward := Z.of_nat (length (body s));
                 done := negb (alive s);
                 info := cause s |}) in
    (Ok (list_to_map (report <$> judged)), g')
  else (Raise MissingMove, g).

(** *** Reset *)

Definition start_cell (w h : Z) (count i : nat) : Coord :=
  let k := (Z.of_nat i * (w * h)) `div` Z.of_nat count in
  (k `mod` w, k `div` w).

Definition spawn (w h : Z) (names : list string) : list Snake :=
  imap (λ i name, {| sid := name;
                     body := [start_cell w h (length names) i];
                     health := 100; alive := true; cause := None |}) names.

Definition configure (o : BattlesnakeOptions) (source : Z)
    : outcome (gmap string Observation) * option Session :=
  if bool_decide (width o ≤ 0 ∨ height o ≤ 0
                  ∨ width o * height o < Z.of_nat (length (names o)))
  then (Raise InvalidConfiguration, None)
  else
    let fresh := spawn (width o) (height o) (names o) in
    let empty := {| b_width := width o; b_height := height o; cells := ∅ |} in
    let '(b, r) := refill (sync empty fresh) (source `mod` 2 ^ 31) in
    let g := {| turn := 0; snakes := fresh; board := b; rng := r;
                threshold := if bool_decide (game_type o = "solo")
                             then 0 else 1 |} in
    (Ok (list_to_map ((λ s, (sid s, observe g)) <$> fresh)), Some g).

(** *** Rendering *)

Definition glyph (colorized : bool) (o : Occupant) : string :=
  match o with
  | Empty => "."
  | Food => "*"
  | Hazard => "#"
  | Segment owner index =>
      if colorized then (if bool_decide (index = 0%nat) then "H" else "o")
      else "s"
  end.

Definition draw (colorized : bool) (b : Board) : string :=
  foldr (λ y acc,
           foldr (λ x row, glyph colorized (occupant_at b (x, y)) +:+ row)
                 "" (seqZ 0 (b_width b))
           +:+ "|" +:+ acc)
        "" (reverse (seqZ 0 (b_height b))).

(** *** The engine object *)

(** The session of the running game and the values that the process
    entropy source will deliver to unseeded resets. *)
Record State := {
  game : Session;
  entropy : list Z;
}.

Definition blank : Session :=
  {| turn := 0; snakes := [];
     board := {| b_width := 0; b_height := 0; cells := ∅ |};
     rng := 0; threshold := 0 |}.

(** A seed re-seeds the random source; without one a fresh value is
    drawn.  A failed reset leaves the running session as it was. *)
Definition ref_reset (o : BattlesnakeOptions) (st : State)
    : outcome (gmap string Observation) * State :=
  match seed o with
  | Some s =>
      let '(r, g) := configure o s in
      (r, {| game := default (game st) g; entropy := entropy st |})
  | None =>
      let '(r, g) := configure o (default 0 (entropy st !! 0%nat)) in
      (r, {| game := default (game st) g; entropy := tail (entropy st) |})
  end.

Definition ref_step (moves : gmap string value) (st : State)
    : outcome (gmap string TurnResult) * State :=
  let '(r, g) := resolve moves (game st) in
  (r, {| game := g; entropy := entropy st |}).

Definition engine : Engine :=
  {| ES := State; Obs := Observation; Rew := Z; Info := option Cause;
     MoveV := value;
     env_reset := ref_reset;
     env_step := ref_step;
     env_done := λ st, is_done (game st);
     env_render := λ colorized st, draw colorized (board (game st)) |}.

End Reference.

(** ** Sample sessions on the reference engine *)

(** Reading an outcome back. *)
Definition succeeded {A} (o : outcome A) : bool :=
  match o with Ok _ => true | Raise _ => false end.

Definition result_or {A} (d : A) (o : outcome A) : A :=
  match o with Ok a => a | Raise _ => d end.

Module Sample.

(** What [BaseEnv(width=7, height=7, num_agents=2)] and the solo
    environment of the demo construct. *)
Definition duo : BaseEnv :=
  {| possible_agents := ["agent_0"; "agent_1"];
     agent_name_mapping := {[ "agent_0" := 0%nat; "agent_1" := 1%nat ]};
     agent_selection := "agent_0";
     _options := {| width := 7; height := 7; colors := [];
                    game_map := "standard"; game_type := "standard";
                    names := ["agent_0"; "agent_1"]; seed := None |};
     agents := None |}.

Definition solo : BaseEnv :=
  {| possible_agents := ["agent_0"];
     agent_name_mapping := {[ "agent_0" := 0%nat ]};
     agent_selection := "agent_0";
     _options := {| width := 7; height := 7; colors := [];
                    game_map := "standard"; game_type := "solo";
                    names := ["agent_0"]; seed := None |};
     agents := None |}.

(** A process that has just imported the package: no game yet, and
    [noise] is what the entropy source will deliver. *)
Definition boot (env : BaseEnv) (noise : list Z) : World Reference.engine :=
  Build_World Reference.engine env
    {| Reference.game := Reference.blank; Reference.entropy := noise |} [] [].

Definition living_agents (st : Reference.State) : list string :=
  Reference.sid <$> Reference.living (Reference.game st).

Definition Moves : Type := gmap string (MoveV Reference.engine).

Definition both_up : Moves :=
  ({[ "agent_0" := VInt 0; "agent_1" := VInt 0 ]} : gmap string value).

Definition first_up : Moves :=
  ({[ "agent_0" := VInt 0 ]} : gmap string value).

Definition no_moves : Moves := (∅ : gmap string value).

(** A two-snake game after [reset(seed=42)], and the same game after a
    premature [step(None)]. *)
Definition started : World Reference.engine :=
  (reset (Some 42) true (boot duo [])).2.

Definition stopped : World Reference.engine := (step None started).2.

(** The cells an agent sees in the result of the first step. *)
Definition first_cells (r : outcome (list (StepReturn Reference.engine)))
    (agent : string) : option (list (Reference.Coord * Reference.Occupant)) :=
  match r with
  | Ok (Return5 observations _ _ _ _ :: _) =>
      Reference.o_cells <$> observations !! agent
  | _ => None
  end.

End Sample.

(** ** More of [move.py] and [base_env.py] *)

(** [Move.sample] defers to [Discrete.sample], which draws
    [self.np_random.integers(self.n)] and adds [self.start].  The
    generator is numpy's; [integers] stands for it and threads its
    state. *)
Definition move_sample {G} (integers : Z → G → Z * G) (self : Move.t) (g : G)
    : Z * G :=
  let '(k, g') := integers (Move.n self) g in (Move.start self + k, g').

(** What a space may be compared with. *)
Inductive pyobj :=
| OMove (m : Move.t)
| OSpace (sp : Space)
| OValue (v : value).

(** [Move.__eq__]: [isinstance(other, Move)]. *)
Definition move_eq (self : Move.t) (other : pyobj) : bool :=
  match other with
  | OMove _ => true
  | _ => false
  end.

(** Membership of the values at hand in a declared space:
    [Discrete.contains], and [Dict.contains], which accepts dictionaries
    only. *)
Definition space_contains (sp : Space) (x : value) : bool :=
  match sp with
  | Discrete n start => discrete_contains n start x
  | Dict _ => false
  end.

(** *** [make_env] *)

(** [BaseEnv.metadata] is a class attribute: one dictionary, reached
    through every instance as [env.metadata]. *)
Inductive meta_value :=
| MetaList (l : list string)
| MetaStr (s : string).

Definition metadata_of_class : gmap string meta_value :=
  {[ "render_modes" := MetaList render_modes ]}.

(** [f"battlesnake-{env._options.game_map}-{env._options.game_type}_v0"] *)
Definition env_name (env : BaseEnv) : string :=
  "battlesnake-" +:+ game_map (_options env) +:+ "-"
  +:+ game_type (_options env) +:+ "_v0".

Definition construct (width height num_agents : Z) (colors : list string)
    (game_map game_type : string) : M (gmap string meta_value) BaseEnv :=
  λ metadata, (init width height num_agents colors game_map game_type, metadata).

Definition set_metadata (key : string) (v : meta_value)
    : M (gmap string meta_value) () :=
  λ metadata, (Ok (), <[key := v]> metadata).

(** The two pettingzoo wrappers are the caller's. *)
Definition make_env {A B} (parallel_to_aec : BaseEnv → A)
    (OrderEnforcingWrapper : A → B)
    (width height num_agents : Z) (colors : list string)
    (game_map game_type : string) : M (gmap string meta_value) B :=
  let* env := construct width height num_agents colors game_map game_type in
  set_metadata "name" (MetaStr (env_name env)) >>
  let env := parallel_to_aec env in
  let env := OrderEnforcingWrapper env in
  ret env.

(** ** More sample runs *)

Module Trial.

(** What [BaseEnv(width=0, height=7, num_agents=1)] constructs. *)
Definition flat : BaseEnv :=
  {| possible_agents := ["agent_0"];
     agent_name_mapping := {[ "agent_0" := 0%nat ]};
     agent_selection := "agent_0";
     _options := {| width := 0; height := 7; colors := [];
                    game_map := "standard"; game_type := "standard";
                    names := ["agent_0"]; seed := None |};
     agents := None |}.

(** The two-agent environment before its first [reset]. *)
Definition unborn : World Reference.engine := Sample.boot Sample.duo [].

(** A mapping that holds only the marker of a dead agent. *)
Definition marker : Sample.Moves :=
  ({[ "agent_0" := VNone ]} : gmap string value).

(** A generator for [integers]. *)
Definition lcg (n : Z) (g : Z) : Z * Z :=
  (Reference.rng_next g `mod` n, Reference.rng_next g).

End Trial.

(** Reading a raised exception back. *)
Global Instance Error_eq_dec : EqDecision Error.
Proof. solve_decision. Defined.

Definition raised {A} (e : Error) (o : outcome A) : bool :=
  match o with
  | Raise e' => bool_decide (e' = e)
  | Ok _ => false
  end.

(** * Properties *)

(** ** Dictionaries built by [step] *)

Section Dictionaries.
Context {E : Engine}.

Lemma insert_all_foldl {A B} (f : A → B) (l : list (string * A))
    (m0 : gmap string B) :
  foldl (λ m kv, <[kv.1 := f kv.2]> m) m0 l
  = (f <$> list_to_map (reverse l)) ∪ m0.
Proof.
  revert m0. induction l as [|[k v] l IH]; intros m0; simpl.
  - by rewrite fmap_empty, (left_id_L ∅ (∪)).
  - rewrite IH, reverse_cons, list_to_map_app, map_fmap_union. simpl.
    rewrite insert_empty, map_fmap_singleton, <-(assoc_L (∪)).
    by rewrite <-insert_union_singleton_l.
Qed.

(** The loop copies each field of each reported agent, and nothing else. *)
Lemma collect_fmap (res : gmap string (AgentResult (Obs E) (Rew E) (Info E))) :
  collect res
  = (observation <$> res, reward <$> res, done <$> res, info <$> res).
Proof.
  unfold collect.
  assert (Hgen : ∀ l (acc : Collected (E:=E)),
    foldl collect_one acc l =
    (foldl (λ m kv, <[kv.1 := observation kv.2]> m) acc.1.1.1 l,
     foldl (λ m kv, <[kv.1 := reward kv.2]> m) acc.1.1.2 l,
     foldl (λ m kv, <[kv.1 := done kv.2]> m) acc.1.2 l,
     foldl (λ m kv, <[kv.1 := info kv.2]> m) acc.2 l)).
  { induction l as [|[k v] l IH]; intros [[[o r] d] i]; simpl; [done|].
    by rewrite IH. }
  rewrite Hgen. simpl. rewrite !insert_all_foldl, !(right_id_L ∅ (∪)).
  assert (Hl : list_to_map (reverse (map_to_list res)) = res).
  { symmetry. rewrite <-(list_to_map_to_list res) at 1.
    apply list_to_map_proper; [apply NoDup_fst_map_to_list|].
    symmetry. apply reverse_Permutation. }
  by rewrite Hl.
Qed.

Lemma all_false_lookup (l : list string) (a : string) :
  all_false l !! a = if bool_decide (a ∈ l) then Some false else None.
Proof.
  unfold all_false.
  assert (Hgen : ∀ (d : gmap string bool),
    foldl (λ d a, <[a := false]> d) d l !! a
    = if bool_decide (a ∈ l) then Some false else d !! a).
  { induction l as [|b l IH]; intros d; simpl; [done|].
    rewrite IH. destruct (decide (a ∈ l)) as [Hin|Hin].
    - rewrite !bool_decide_eq_true_2; [done|by apply list_elem_of_further|done].
    - rewrite (bool_decide_eq_false_2 (a ∈ l)) by done.
      destruct (decide (a = b)) as [->|Hne].
      + rewrite lookup_insert_eq, bool_decide_eq_true_2; [done|].
        apply list_elem_of_here.
      + rewrite lookup_insert_ne, bool_decide_eq_false_2; [done| |done].
        rewrite elem_of_cons. tauto. }
  rewrite Hgen. by case_bool_decide.
Qed.

End Dictionaries.

(** ** [step] *)

Section Step.
Context {E : Engine}.
Implicit Types (w : World E) (action : option (gmap string (MoveV E))).

(** The long path of [step], once the engine has answered and the
    [agents] attribute exists. *)
Lemma step_full w action live res es' :
  falsy action = false →
  agents (self w) = Some live →
  env_step E (moves_of action) (eng w) = (Ok res, es') →
  step action w =
    (Ok (Return5 (observation <$> res) (reward <$> res) (done <$> res)
                 (all_false live) (info <$> res)),
     let w1 := logged CallDone es' (logged CallStep es' w) in
     if env_done E es' then on_self (write_agents []) w1 else w1).
Proof.
  intros Hf Hlive Hstep. unfold step. rewrite Hf.
  unfold bind at 1. unfold call_env_step. rewrite Hstep.
  unfold bind at 1. unfold get_agents. simpl. rewrite Hlive.
  rewrite collect_fmap. unfold bind at 1. unfold call_env_done. simpl.
  destruct (env_done E es'); reflexivity.
Qed.

(** Before the first [reset] there is no [agents] attribute to read;
    the engine has resolved the turn by then. *)
Lemma step_before_reset w action res es' :
  falsy action = false →
  agents (self w) = None →
  env_step E (moves_of action) (eng w) = (Ok res, es') →
  step action w = (Raise (AttributeError "agents"), logged CallStep es' w).
Proof.
  intros Hf Hnone Hstep. unfold step. rewrite Hf.
  unfold bind at 1. unfold call_env_step. rewrite Hstep.
  unfold bind at 1. unfold get_agents. simpl. by rewrite Hnone.
Qed.

(** An exception of the engine leaves [step] at the call. *)
Lemma step_engine_raises w action e es' :
  falsy action = false →
  env_step E (moves_of action) (eng w) = (Raise e, es') →
  step action w = (Raise e, logged CallStep es' w).
Proof.
  intros Hf Hstep. unfold step. rewrite Hf.
  unfold bind at 1. unfold call_env_step. by rewrite Hstep.
Qed.

(** The early exit of [step]. *)
Lemma step_short w action :
  falsy action = true →
  step action w = (Ok (Return4 ∅ ∅ ∅ ∅), on_self (write_agents []) w).
Proof. intros Hf. unfold step. by rewrite Hf. Qed.

(** C9: for a falsy moves argument ([None] or the empty mapping) [step]
    does not call the engine (its state and the call trace are as
    before), writes the empty list to [agents], and returns four empty
    mappings, not the five of the long path. *)
Theorem step_falsy_action_short_circuits w action :
  falsy action = true →
  step action w = (Ok (Return4 ∅ ∅ ∅ ∅), on_self (write_agents []) w)
  ∧ calls (on_self (write_agents []) w) = calls w
  ∧ eng (on_self (write_agents []) w) = eng w
  ∧ agents (self (on_self (write_agents []) w)) = Some [].
Proof. intros Hf. by rewrite step_short. Qed.

(** C3, as amended: for a non-empty moves mapping given after [reset]
    has created the [agents] attribute, once the engine has resolved the
    turn, [step] returns five mappings; observations, rewards, dones
    and infos have exactly the agents the engine reported as keys, and
    hold for each of them that agent's field of the engine's result. *)
Theorem step_returns_engine_results w action live res es' :
  falsy action = false →
  agents (self w) = Some live →
  env_step E (moves_of action) (eng w) = (Ok res, es') →
  ∃ observations rewards dones truncations infos w',
    step action w
    = (Ok (Return5 observations rewards dones truncations infos), w')
    ∧ dom observations = dom res ∧ dom rewards = dom res
    ∧ dom dones = dom res ∧ dom infos = dom res
    ∧ ∀ a, observations !! a = observation <$> res !! a
           ∧ rewards !! a = reward <$> res !! a
           ∧ dones !! a = done <$> res !! a
           ∧ infos !! a = info <$> res !! a.
Proof.
  intros Hf Hlive Hstep.
  eexists _, _, _, _, _, _. split; [by apply step_full|].
  rewrite !dom_fmap_L. repeat split; apply lookup_fmap.
Qed.

(** C7, as amended: when the [agents] list is not empty before a step
    with a non-empty moves mapping that the engine resolves, the list
    is empty afterwards if and only if the engine's done-check reports
    true. *)
Theorem step_empties_agents_iff_done w action live res es' :
  falsy action = false →
  agents (self w) = Some live →
  live ≠ [] →
  env_step E (moves_of action) (eng w) = (Ok res, es') →
  ∃ r w', step action w = (Ok r, w')
          ∧ eng w' = es'
          ∧ (agents (self w') = Some [] ↔ env_done E (eng w') = true).
Proof.
  intros Hf Hlive Hne Hstep.
  eexists _, _. split; [by apply step_full|]. simpl.
  destruct (env_done E es') eqn:Hd; simpl.
  - by rewrite Hd.
  - rewrite Hd, Hlive. split; [done|]. split; [|done].
    intros [= ->]. done.
Qed.

End Step.

(** ** [reset] *)

Section Reset.
Context {E : Engine}.
Implicit Types (w : World E).

Lemma reset_unfold w (s : option Z) (return_info : bool) :
  reset s return_info w =
    let stored := if seed_truthy s then s else None in
    let w1 := on_self (prepared stored) w in
    let r := env_reset E (_options (self w1)) (eng w1) in
    (match r.1 with
     | Ok obs => Ok (if return_info then WithInfo obs ∅ else Plain obs)
     | Raise e => Raise e
     end, logged CallReset r.2 w1).
Proof.
  unfold reset, bind, get_possible_agents, set_agents, get_options,
    call_env_reset, set_options_seed, ret. simpl.
  destruct (seed_truthy s), return_info; simpl;
    match goal with |- context [env_reset E ?o ?es] =>
      destruct (env_reset E o es) as [[obs|e] es'] end; reflexivity.
Qed.

(** A seed other than zero is stored as given, and no seed is stored as
    [None]. *)
Lemma reset_stores_seed w (s : option Z) (return_info : bool) :
  s ≠ Some 0 →
  seed (_options (self (reset s return_info w).2)) = s.
Proof.
  intros Hs. rewrite reset_unfold. simpl.
  destruct s as [z|]; simpl; [|done].
  case_bool_decide; [done|]. by subst.
Qed.

(** C4, at the seed the claim fails for: [reset(seed=0)] is given a
    seed, yet the seed left in the options is [None], not [0]. *)
Theorem reset_seed_zero_not_stored w (return_info : bool) :
  seed (_options (self (reset (Some 0) return_info w).2)) ≠ Some 0.
Proof. by rewrite reset_unfold. Qed.

(** C10: [reset(seed=0)] runs exactly as [reset()] does: the same
    result, the same engine call on the same options, and [None] as the
    stored seed. *)
Theorem reset_seed_zero_as_unseeded w (return_info : bool) :
  reset (Some 0) return_info w = reset None return_info w
  ∧ seed (_options (self (reset (Some 0) return_info w).2)) = None.
Proof. by rewrite !reset_unfold. Qed.

End Reset.

(** ** [render] *)

Section Render.
Context {E : Engine}.
Implicit Types (w : World E).

(** C5: in each of the render modes "human", "ascii" and "color",
    [render] returns [None] and leaves [self] (hence the agents list
    and the options) and the engine as they were; it only prints the
    engine's text. *)
Theorem render_is_read_only w (mode : string) :
  mode ∈ render_modes →
  ∃ w', render mode w = (Ok (), w')
        ∧ self w' = self w
        ∧ agents (self w') = agents (self w)
        ∧ _options (self w') = _options (self w)
        ∧ eng w' = eng w
        ∧ stdout w'
          = (stdout w ++ [env_render E (bool_decide (mode = "color")) (eng w)])%list.
Proof.
  intros Hmode. unfold render_modes in Hmode.
  rewrite !elem_of_cons, elem_of_nil in Hmode.
  destruct Hmode as [->|[->|[->|[]]]]; eexists; (split; [reflexivity|]);
    done.
Qed.

(** Any other mode fails the assertion, again without touching state. *)
Lemma render_invalid_mode w (mode : string) :
  mode ∉ render_modes →
  render mode w
  = (Raise (AssertionError "Valid render modes are 'ascii' and 'color'"), w).
Proof.
  unfold render_modes. rewrite !not_elem_of_cons. intros (?&?&?&_).
  unfold render. by rewrite !bool_decide_eq_false_2.
Qed.

End Render.

(** ** Spaces *)

Section Spaces.

Lemma init_agents_named width height num_agents colors game_map game_type env :
  init width height num_agents colors game_map game_type = Ok env →
  ∀ a, a ∈ possible_agents env → ∃ i : nat, a = "agent_" +:+ pretty i.
Proof.
  unfold init. intros Hinit a Ha.
  destruct (_ !! 0%nat); [|done]. injection Hinit as <-. simpl in Ha.
  apply list_elem_of_fmap in Ha as (i & -> & _). by exists i.
Qed.

Lemma init_agents_pass_checks width height num_agents colors game_map game_type env a :
  init width height num_agents colors game_map game_type = Ok env →
  a ∈ possible_agents env →
  agent_truthy (Some a) = true ∧ agent_valid env (Some a) = true.
Proof.
  intros Hinit Ha.
  destruct (init_agents_named _ _ _ _ _ _ _ Hinit a Ha) as [i ->].
  split; [reflexivity|]. simpl. by apply bool_decide_eq_true_2.
Qed.

Lemma move_contains_iff (x : value) :
  Move.contains Move.init x = true ↔ x ∈ VInt <$> Move.possible_moves.
Proof.
  unfold Move.contains, Move.init, discrete_contains. simpl.
  rewrite !elem_of_cons, elem_of_nil. destruct x as [z| |]; simpl.
  - rewrite bool_decide_eq_true. split.
    + intros Hz.
      assert (Hcases : z = 0 ∨ z = 1 ∨ z = 2 ∨ z = 3) by lia.
      destruct Hcases as [-> | [-> | [-> | ->]]]; tauto.
    + intros [[= ->]|[[= ->]|[[= ->]|[[= ->]|[]]]]]; lia.
  - split; [done|]. intros [?|[?|[?|[?|[]]]]]; discriminate.
  - split; [done|]. intros [?|[?|[?|[?|[]]]]]; discriminate.
Qed.

(** C6: for every agent of an environment built by [__init__],
    [action_space] is the discrete space of size 4, the same space
    [Move()] is, and [Move] contains exactly the four encoded moves
    0, 1, 2 and 3. *)
Theorem action_space_has_four_moves
    width height num_agents colors game_map game_type env a :
  init width height num_agents colors game_map game_type = Ok env →
  a ∈ possible_agents env →
  action_space env (Some a) = Ok (Discrete 4 0)
  ∧ Move.as_space Move.init = Discrete 4 0
  ∧ length (Move.moves Move.init) = 4%nat
  ∧ ∀ x, Move.contains Move.init x = true
         ↔ x = VInt 0 ∨ x = VInt 1 ∨ x = VInt 2 ∨ x = VInt 3.
Proof.
  intros Hinit Ha.
  destruct (init_agents_pass_checks _ _ _ _ _ _ _ _ Hinit Ha) as [Ht Hv].
  unfold action_space. rewrite Ht, Hv. repeat split; try done.
  - rewrite move_contains_iff. simpl.
    rewrite !elem_of_cons, elem_of_nil. tauto.
  - rewrite move_contains_iff. simpl.
    rewrite !elem_of_cons, elem_of_nil. tauto.
Qed.

(** C8, as amended: for every agent of an environment built by
    [__init__], the declared observation space is the dictionary space
    without any field. *)
Theorem observation_space_declares_nothing
    width height num_agents colors game_map game_type env a :
  init width height num_agents colors game_map game_type = Ok env →
  a ∈ possible_agents env →
  observation_space env (Some a) = Ok (Dict [])
  ∧ space_keys (Dict []) = [].
Proof.
  intros Hinit Ha.
  destruct (init_agents_pass_checks _ _ _ _ _ _ _ _ Hinit Ha) as [Ht Hv].
  unfold observation_space. by rewrite Ht, Hv.
Qed.

End Spaces.

(** ** Missing moves *)

Section MissingMoves.
Context {E : Engine}.
Implicit Types (w : World E) (action : option (gmap string (MoveV E))).

(** The engine's side of the contract: the agents it holds alive, and
    its refusal to resolve a turn in which one of them has no move. *)
Variable living_agents : ES E → list string.
Hypothesis engine_rejects : ∀ moves es a,
  a ∈ living_agents es → moves !! a = None →
  env_step E moves es = (Raise MissingMove, es).

(** C1, as amended: a non-empty moves mapping that omits a living
    agent makes [step] fail with MissingMove, raised by the engine and
    passed on to the caller; the turn is not resolved and [self] is not
    written. *)
Theorem step_propagates_missing_move w action a :
  falsy action = false →
  a ∈ living_agents (eng w) →
  moves_of action !! a = None →
  step action w = (Raise MissingMove, logged CallStep (eng w) w)
  ∧ self (logged CallStep (eng w) w) = self w
  ∧ eng (logged CallStep (eng w) w) = eng w.
Proof.
  intros Hf Ha Hnone. split; [|done].
  apply step_engine_raises; [done|]. by apply engine_rejects with a.
Qed.

End MissingMoves.

(** The reference engine keeps its side. *)
Lemma reference_rejects_missing_move
    (moves : gmap string value) (st : Reference.State) (a : string) :
  a ∈ Sample.living_agents st → moves !! a = None →
  env_step Reference.engine moves st = (Raise MissingMove, st).
Proof.
  intros Ha Hnone. simpl. unfold Reference.ref_step, Reference.resolve.
  rewrite bool_decide_eq_false_2; [by destruct st|].
  rewrite Forall_forall. intros Hall.
  apply list_elem_of_fmap in Ha as (s & -> & Hs).
  destruct (Hall s Hs) as [d Hd].
  unfold Reference.move_for in Hd. by rewrite Hnone in Hd.
Qed.

(** ** Replaying a session *)

Section Replay.
Context {E : Engine}.
Implicit Types (w : World E) (action : option (gmap string (MoveV E))).

(** Two engine states are alike when the game in them is the same,
    whatever else the engine holds.  A seeded reset forgets what came
    before, and turns keep alike states alike. *)
Variable alike : ES E → ES E → Prop.
Hypothesis reset_seeded : ∀ o es1 es2,
  seed o ≠ None →
  (env_reset E o es1).1 = (env_reset E o es2).1
  ∧ (∀ obs, (env_reset E o es1).1 = Ok obs
            → alike (env_reset E o es1).2 (env_reset E o es2).2).
Hypothesis step_alike : ∀ moves es1 es2,
  alike es1 es2 →
  (env_step E moves es1).1 = (env_step E moves es2).1
  ∧ (∀ res, (env_step E moves es1).1 = Ok res
            → alike (env_step E moves es1).2 (env_step E moves es2).2).
Hypothesis done_alike : ∀ es1 es2,
  alike es1 es2 → env_done E es1 = env_done E es2.

Lemma step_same w1 w2 action :
  alike_worlds alike w1 w2 →
  (step action w1).1 = (step action w2).1
  ∧ (∀ r, (step action w1).1 = Ok r
          → alike_worlds alike (step action w1).2 (step action w2).2).
Proof.
  intros [Hag Hal]. destruct (falsy action) eqn:Hf.
  - rewrite !step_short by done. by repeat split.
  - destruct (step_alike (moves_of action) _ _ Hal) as [Hr Hal'].
    destruct (env_step E (moves_of action) (eng w1)) as [[res|e] es1] eqn:H1;
      destruct (env_step E (moves_of action) (eng w2)) as [r2 es2] eqn:H2;
      simpl in Hr; subst r2.
    + specialize (Hal' res eq_refl). simpl in Hal'.
      destruct (agents (self w1)) as [live|] eqn:Hl1.
      * rewrite (step_full w1 action live res es1), (step_full w2 action live res es2)
          by done.
        rewrite (done_alike _ _ Hal'). split; [done|]. intros _ _.
        simpl. destruct (env_done E es2); split; simpl; try done.
        by rewrite Hl1.
      * rewrite (step_before_reset w1 action res es1),
          (step_before_reset w2 action res es2) by done.
        by split.
    + rewrite (step_engine_raises w1 action e es1), (step_engine_raises w2 action e es2)
        by done.
      by split.
Qed.

Lemma steps_same ms : ∀ w1 w2,
  alike_worlds alike w1 w2 → (steps ms w1).1 = (steps ms w2).1.
Proof.
  induction ms as [|m ms IH]; intros w1 w2 Hs; [done|].
  simpl. unfold bind at 1 3.
  destruct (step_same w1 w2 m Hs) as [Hr Hs'].
  destruct (step m w1) as [[r|e] w1']; destruct (step m w2) as [r2 w2'];
    simpl in Hr; subst r2; [|done].
  specialize (IH w1' w2' (Hs' r eq_refl)).
  unfold bind. destruct (steps ms w1') as [[rs|e] ?];
    destruct (steps ms w2') as [r2 ?]; simpl in IH; by subst r2.
Qed.

(** With a seed other than zero, the results of a session depend on
    the seed and the moves alone: not on what the engine held before,
    nor on leftovers of an earlier game in [self]. *)
Lemma session_reproducible w1 w2 (s : Z) ms :
  s ≠ 0 →
  possible_agents (self w1) = possible_agents (self w2) →
  set_seed None (_options (self w1)) = set_seed None (_options (self w2)) →
  (session (Some s) ms w1).1 = (session (Some s) ms w2).1.
Proof.
  intros Hs Hpa Hopt. unfold session. unfold bind at 1 2.
  rewrite !reset_unfold. simpl. rewrite bool_decide_eq_true_2 by done.
  set (o1 := set_seed (Some s) (_options (self w1))).
  assert (Ho : set_seed (Some s) (_options (self w2)) = o1).
  { unfold o1, set_seed in *. by injection Hopt as -> -> -> -> -> ->. }
  rewrite Ho.
  destruct (reset_seeded o1 (eng w1) (eng w2)) as [Hr Hal]; [done|].
  destruct (env_reset E o1 (eng w1)) as [[obs|e] es1];
    destruct (env_reset E o1 (eng w2)) as [r2 es2];
    simpl in Hr; subst r2; simpl; [|done].
  apply steps_same. split; simpl; [by rewrite Hpa|].
  by apply (Hal obs).
Qed.

End Replay.

(** The reference engine is seeded in this sense. *)
Lemma reference_reproducible w1 w2 (s : Z) ms :
  s ≠ 0 →
  possible_agents (self w1) = possible_agents (self w2) →
  set_seed None (_options (self w1)) = set_seed None (_options (self w2)) →
  (session (E:=Reference.engine) (Some s) ms w1).1
  = (session (E:=Reference.engine) (Some s) ms w2).1.
Proof.
  apply (session_reproducible (E:=Reference.engine)
           (λ st1 st2 : Reference.State,
              Reference.game st1 = Reference.game st2)).
  - intros o st1 st2 Hseed. simpl. unfold Reference.ref_reset.
    destruct (seed o) as [z|]; [|done].
    destruct (Reference.configure o z) as [[obs|e] [g|]] eqn:Hc;
      simpl; split; try done.
    unfold Reference.configure in Hc. case_bool_decide; [done|].
    by destruct (Reference.refill _ _).
  - intros moves st1 st2 Hg. simpl. unfold Reference.ref_step.
    rewrite Hg. by destruct (Reference.resolve moves (Reference.game st2)).
  - intros st1 st2 Hg. simpl. by rewrite Hg.
Qed.

(** ** Runs on the reference engine *)

Lemma succeeded_eq {A S} (p : outcome A * S) (d : A) :
  succeeded p.1 = true → p = (Ok (result_or d p.1), p.2).
Proof. by destruct p as [[a|e] s]. Qed.

Section Runs.
Import Reference Sample.

Lemma init_duo : init 7 7 2 [] "standard" "standard" = Ok duo.
Proof. vm_compute. reflexivity. Qed.

Lemma init_solo : init 7 7 1 [] "standard" "solo" = Ok solo.
Proof. vm_compute. reflexivity. Qed.

(** [started] and [stopped] are reached by calls that return. *)
Lemma started_reached :
  succeeded (reset (Some 42) true (boot duo [])).1 = true
  ∧ succeeded (step None started).1 = true.
Proof. split; vm_compute; reflexivity. Qed.

(** C1, counterexample: in a running two-snake game both agents are
    alive, the empty moves mapping omits a move for each of them, and
    [step] returns four empty mappings instead of failing with
    MissingMove. *)
Lemma step_accepts_empty_moves :
  living_agents (eng started) = ["agent_0"; "agent_1"]
  ∧ agents (self started) = Some ["agent_0"; "agent_1"]
  ∧ moves_of (Some no_moves) !! "agent_0" = None
  ∧ (step (Some no_moves) started).1 = Ok (Return4 ∅ ∅ ∅ ∅)
  ∧ (step (Some no_moves) started).1 ≠ Raise MissingMove.
Proof.
  split; [vm_compute; reflexivity|].
  split; [vm_compute; reflexivity|].
  split; [vm_compute; reflexivity|].
  rewrite (step_short started (Some no_moves)) by reflexivity.
  split; [reflexivity|discriminate].
Qed.

(** A move for "agent_0" alone, while "agent_1" lives too. *)
Lemma step_propagates_missing_move_witness :
  falsy (Some first_up) = false
  ∧ "agent_1" ∈ living_agents (eng started)
  ∧ moves_of (Some first_up) !! "agent_1" = None
  ∧ step (Some first_up) started
    = (Raise MissingMove, logged CallStep (eng started) started).
Proof.
  assert (H1 : falsy (Some first_up) = false) by (vm_compute; reflexivity).
  assert (H2 : "agent_1" ∈ living_agents (eng started))
    by (apply (bool_decide_unpack _); vm_compute; exact I).
  assert (H3 : moves_of (Some first_up) !! "agent_1" = None)
    by (vm_compute; reflexivity).
  repeat (split; [assumption|]).
  apply (step_propagates_missing_move (E:=engine) living_agents
           reference_rejects_missing_move started (Some first_up) "agent_1"
           H1 H2 H3).
Defined.

(** C2, at the seed the claim fails for: two replays of
    [reset(seed=0)] followed by the same step, in processes that differ
    only in what the entropy source delivers, return different
    observations. *)
Theorem session_seed_zero_not_reproducible :
  self (boot solo [1]) = self (boot solo [2])
  ∧ (session (Some 0) [Some first_up] (boot solo [1])).1
    ≠ (session (Some 0) [Some first_up] (boot solo [2])).1.
Proof.
  split; [reflexivity|]. intros Heq.
  apply (f_equal (λ r, first_cells r "agent_0")) in Heq.
  vm_compute in Heq. discriminate Heq.
Qed.

(** A resolved turn of the two-snake game. *)
Lemma step_returns_engine_results_witness :
  falsy (Some both_up) = false
  ∧ agents (self started) = Some ["agent_0"; "agent_1"]
  ∧ succeeded (env_step engine both_up (eng started)).1 = true
  ∧ ∃ observations rewards dones truncations infos w',
      step (Some both_up) started
      = (Ok (Return5 observations rewards dones truncations infos), w')
      ∧ dom observations
        = dom (result_or ∅ (env_step engine both_up (eng started)).1)
      ∧ observations !! "agent_1"
        = observation
            <$> result_or ∅ (env_step engine both_up (eng started)).1
                !! "agent_1".
Proof.
  assert (H1 : falsy (Some both_up) = false) by (vm_compute; reflexivity).
  assert (H2 : agents (self started) = Some ["agent_0"; "agent_1"])
    by (vm_compute; reflexivity).
  assert (H3 : succeeded (env_step engine both_up (eng started)).1 = true)
    by (vm_compute; reflexivity).
  repeat (split; [assumption|]).
  destruct (step_returns_engine_results started (Some both_up) _ _ _
              H1 H2 (succeeded_eq _ ∅ H3))
    as (o & r & d & t & i & w' & Hstep & Ho & _ & _ & _ & Hall).
  exists o, r, d, t, i, w'. split; [exact Hstep|]. split; [exact Ho|].
  apply Hall.
Defined.

(** Rendering the running game in colour. *)
Lemma render_is_read_only_witness :
  "color" ∈ render_modes
  ∧ ∃ w', render "color" started = (Ok (), w')
          ∧ self w' = self started ∧ eng w' = eng started.
Proof.
  assert (H1 : "color" ∈ render_modes)
    by (apply (bool_decide_unpack _); vm_compute; exact I).
  split; [assumption|].
  destruct (render_is_read_only started "color" H1)
    as (w' & Hr & Hs & _ & _ & He & _).
  exists w'. split; [exact Hr|]. split; [exact Hs|exact He].
Defined.

(** The second agent of the two-agent environment; 3 is a move, "up" is
    not. *)
Lemma action_space_has_four_moves_witness :
  init 7 7 2 [] "standard" "standard" = Ok duo
  ∧ "agent_1" ∈ possible_agents duo
  ∧ action_space duo (Some "agent_1") = Ok (Discrete 4 0)
  ∧ (Move.contains Move.init (VInt 3) = true ↔ VInt 3 = VInt 3)
  ∧ (Move.contains Move.init (VStr "up") = true ↔ False).
Proof.
  assert (H1 : init 7 7 2 [] "standard" "standard" = Ok duo)
    by (vm_compute; reflexivity).
  assert (H2 : "agent_1" ∈ possible_agents duo)
    by (apply (bool_decide_unpack _); vm_compute; exact I).
  repeat (split; [assumption|]).
  destruct (action_space_has_four_moves _ _ _ _ _ _ _ _ H1 H2)
    as (Ha & _ & _ & Hc).
  split; [exact Ha|]. split.
  - rewrite Hc. split; [done|]. intros _. do 3 right. done.
  - rewrite Hc. split; [|done]. intros [?|[?|[?|?]]]; discriminate.
Defined.

(** C7, counterexample: after a premature [step(None)] the agents list
    is empty while both snakes live; the next step with a move for each
    is resolved, the list is still empty, and the engine's done-check
    reports false. *)
Lemma agents_empty_while_game_runs :
  falsy (Some both_up) = false
  ∧ ∃ r w', step (Some both_up) stopped = (Ok r, w')
            ∧ agents (self w') = Some []
            ∧ env_done engine (eng w') = false.
Proof.
  split; [vm_compute; reflexivity|].
  eexists _, _. split.
  - apply (step_full stopped (Some both_up) []
             (result_or ∅ (env_step engine both_up (eng stopped)).1)
             (env_step engine both_up (eng stopped)).2).
    + vm_compute. reflexivity.
    + vm_compute. reflexivity.
    + apply succeeded_eq. vm_compute. reflexivity.
  - split; vm_compute; reflexivity.
Qed.

(** The first turn of the two-snake game. *)
Lemma step_empties_agents_iff_done_witness :
  falsy (Some both_up) = false
  ∧ agents (self started) = Some ["agent_0"; "agent_1"]
  ∧ ["agent_0"; "agent_1"] ≠ []
  ∧ succeeded (env_step engine both_up (eng started)).1 = true
  ∧ ∃ r w', step (Some both_up) started = (Ok r, w')
            ∧ (agents (self w') = Some []
               ↔ env_done engine (eng w') = true).
Proof.
  assert (H1 : falsy (Some both_up) = false) by (vm_compute; reflexivity).
  assert (H2 : agents (self started) = Some ["agent_0"; "agent_1"])
    by (vm_compute; reflexivity).
  assert (H3 : ["agent_0"; "agent_1"] ≠ @nil string) by discriminate.
  assert (H4 : succeeded (env_step engine both_up (eng started)).1 = true)
    by (vm_compute; reflexivity).
  repeat (split; [assumption|]).
  destruct (step_empties_agents_iff_done started (Some both_up) _ _ _
              H1 H2 H3 (succeeded_eq _ ∅ H4))
    as (r & w' & Hstep & _ & Hiff).
  exists r, w'. split; [exact Hstep|exact Hiff].
Defined.

(** C8, counterexample: the observation space declared for "agent_0"
    has no field at all, so none for the board, the snakes or the
    turn. *)
Lemma observation_space_lacks_snapshot :
  init 7 7 2 [] "standard" "standard" = Ok duo
  ∧ "agent_0" ∈ possible_agents duo
  ∧ ∃ sp, observation_space duo (Some "agent_0") = Ok sp
          ∧ space_keys sp = []
          ∧ ¬ describes_snapshot sp.
Proof.
  split; [exact init_duo|].
  split; [apply (bool_decide_unpack _); vm_compute; exact I|].
  exists (Dict []). split; [vm_compute; reflexivity|]. split; [reflexivity|].
  intros (b & s & t & _ & Hb & _). simpl in Hb. by apply elem_of_nil in Hb.
Qed.

(** The second agent of the two-agent environment. *)
Lemma observation_space_declares_nothing_witness :
  init 7 7 2 [] "standard" "standard" = Ok duo
  ∧ "agent_1" ∈ possible_agents duo
  ∧ observation_space duo (Some "agent_1") = Ok (Dict []).
Proof.
  assert (H1 : init 7 7 2 [] "standard" "standard" = Ok duo)
    by (vm_compute; reflexivity).
  assert (H2 : "agent_1" ∈ possible_agents duo)
    by (apply (bool_decide_unpack _); vm_compute; exact I).
  repeat (split; [assumption|]).
  apply (observation_space_declares_nothing _ _ _ _ _ _ _ _ H1 H2).
Defined.

(** The empty mapping in a running game. *)
Lemma step_falsy_action_short_circuits_witness :
  falsy (Some no_moves) = true
  ∧ step (Some no_moves) started
    = (Ok (Return4 ∅ ∅ ∅ ∅), on_self (write_agents []) started)
  ∧ calls (on_self (write_agents []) started) = calls started.
Proof.
  assert (H1 : falsy (Some no_moves) = true) by (vm_compute; reflexivity).
  split; [assumption|].
  destruct (step_falsy_action_short_circuits started (Some no_moves) H1)
    as (Hs & Hc & _).
  split; [exact Hs|exact Hc].
Defined.

End Runs.

(** ** [__init__] *)

Section Construction.
Implicit Types (width height num_agents : Z) (colors : list string)
  (game_map game_type : string) (env : BaseEnv).

Local Instance agent_label_inj : Inj (=) (=) (λ i : nat, "agent_" +:+ pretty i).
Proof.
  intros i j Heq. simpl in Heq. injection Heq as Heq. by apply (inj pretty).
Qed.

(** What a successful construction leaves in the object. *)
Lemma init_inv width height num_agents colors game_map game_type env :
  init width height num_agents colors game_map game_type = Ok env →
  (0 < Z.to_nat num_agents)%nat
  ∧ possible_agents env
    = ((λ i : nat, "agent_" +:+ pretty i) <$> seq 0 (Z.to_nat num_agents))
  ∧ agent_name_mapping env
    = list_to_map (zip (possible_agents env)
                       (seq 0 (length (possible_agents env))))
  ∧ agent_selection env = "agent_0"
  ∧ _options env
    = {| width := width; height := height; colors := colors;
         game_map := game_map; game_type := game_type;
         names := possible_agents env; seed := None |}
  ∧ agents env = None.
Proof.
  unfold init. destruct (Z.to_nat num_agents) as [|k] eqn:Hn; simpl; [done|].
  intros [= <-]. simpl. repeat split; lia.
Qed.

Lemma zip_seq_elem {A} (l : list A) (k : nat) (a : A) (i : nat) :
  (a, i) ∈ zip l (seq k (length l)) ↔ (k ≤ i)%nat ∧ l !! (i - k)%nat = Some a.
Proof.
  revert k. induction l as [|b l IH]; intros k; simpl.
  - rewrite elem_of_nil. split; [done|]. by intros [_ ?].
  - rewrite elem_of_cons, IH. split.
    + intros [[= -> ->]|[Hle Hl]].
      * split; [lia|]. by rewrite Nat.sub_diag.
      * split; [lia|]. by replace (i - k)%nat with (S (i - S k)) by lia.
    + intros [Hle Hl]. destruct (decide (i = k)) as [->|Hne].
      * left. rewrite Nat.sub_diag in Hl. simpl in Hl. by injection Hl as ->.
      * right. split; [lia|].
        by replace (i - k)%nat with (S (i - S k)) in Hl by lia.
Qed.

Lemma init_agents_unique width height num_agents colors game_map game_type env :
  init width height num_agents colors game_map game_type = Ok env →
  length (possible_agents env) = Z.to_nat num_agents
  ∧ NoDup (possible_agents env).
Proof.
  intros Hinit. destruct (init_inv _ _ _ _ _ _ _ Hinit) as (_ & Hpa & _).
  rewrite Hpa. split; [by rewrite length_fmap, length_seq|].
  apply (NoDup_fmap_2 _), NoDup_seq.
Qed.

(** X1: construction fails, with IndexError, exactly when [num_agents]
    is not positive. *)
Theorem init_fails_iff_no_agents
    width height num_agents colors game_map game_type :
  (init width height num_agents colors game_map game_type = Raise IndexError
   ↔ num_agents ≤ 0)
  ∧ (succeeded (init width height num_agents colors game_map game_type) = true
     ↔ 0 < num_agents).
Proof.
  unfold init.
  destruct (Z.to_nat num_agents) as [|k] eqn:Hn; simpl.
  - split; split; try done; lia.
  - split; split; try done; lia.
Qed.

(** X2: a constructed environment has [num_agents] agents, pairwise
    distinct, the i-th of them named "agent_" followed by i in decimal;
    the first is the selected agent, the options carry the same names and
    no seed, and there is no [agents] attribute yet. *)
Theorem init_agents_distinct
    width height num_agents colors game_map game_type env :
  init width height num_agents colors game_map game_type = Ok env →
  length (possible_agents env) = Z.to_nat num_agents
  ∧ NoDup (possible_agents env)
  ∧ (∀ i : nat, (i < Z.to_nat num_agents)%nat →
       possible_agents env !! i = Some ("agent_" +:+ pretty i))
  ∧ possible_agents env !! 0%nat = Some (agent_selection env)
  ∧ names (_options env) = possible_agents env
  ∧ seed (_options env) = None
  ∧ agents env = None.
Proof.
  intros Hinit.
  destruct (init_inv _ _ _ _ _ _ _ Hinit) as (Hpos & Hpa & _ & Hsel & Hopt & Hag).
  assert (Hith : ∀ i : nat, (i < Z.to_nat num_agents)%nat →
            possible_agents env !! i = Some ("agent_" +:+ pretty i)).
  { intros i Hi. by rewrite Hpa, list_lookup_fmap, lookup_seq_lt. }
  destruct (init_agents_unique _ _ _ _ _ _ _ Hinit) as [Hlen Hnd].
  split; [exact Hlen|]. split; [exact Hnd|].
  split; [exact Hith|].
  split; [by rewrite Hsel, (Hith 0%nat Hpos)|].
  rewrite Hopt. done.
Qed.

(** X3: [agent_name_mapping] inverts indexing into [possible_agents]:
    it sends an agent to [i] exactly when the agent is the i-th one. *)
Theorem agent_name_mapping_inverts_index
    width height num_agents colors game_map game_type env (a : string) (i : nat) :
  init width height num_agents colors game_map game_type = Ok env →
  agent_name_mapping env !! a = Some i ↔ possible_agents env !! i = Some a.
Proof.
  intros Hinit.
  destruct (init_agents_unique _ _ _ _ _ _ _ Hinit) as [Hlen Hnd].
  destruct (init_inv _ _ _ _ _ _ _ Hinit) as (_ & _ & Hmap & _).
  rewrite Hmap, <-elem_of_list_to_map.
  - rewrite zip_seq_elem, Nat.sub_0_r. split; [by intros [_ ?]|].
    intros ?. split; [lia|done].
  - rewrite fst_zip; [done|]. by rewrite length_seq.
Qed.

End Construction.

(** ** The space methods and [Move] *)

Section SpaceMethods.
Implicit Types (self : BaseEnv) (agent : option string).

Lemma agent_checks_iff self agent :
  agent_truthy agent && agent_valid self agent = true
  ↔ ∃ a, agent = Some a ∧ a ≠ "" ∧ a ∈ possible_agents self.
Proof.
  destruct agent as [a|]; simpl.
  - rewrite andb_true_iff, !bool_decide_eq_true. split.
    + intros [? ?]. by exists a.
    + by intros (? & [= <-] & ? & ?).
  - split; [done|]. by intros (? & ? & _).
Qed.

(** X4: [action_space] and [observation_space] accept the same agents,
    namely the non-empty names in [possible_agents].  For [None] and the
    empty string both raise AssertionError "Agent must be provided"; for
    any other name both raise AssertionError with the same message, the
    text "agent must be one of " followed by the list of possible agents
    as Python prints it. *)
Theorem space_methods_accept_known_agents self agent :
  (action_space self agent = Ok (Discrete 4 0)
   ↔ ∃ a, agent = Some a ∧ a ≠ "" ∧ a ∈ possible_agents self)
  ∧ (observation_space self agent = Ok (Dict [])
     ↔ ∃ a, agent = Some a ∧ a ≠ "" ∧ a ∈ possible_agents self)
  ∧ (agent = None ∨ agent = Some ""
     → action_space self agent
       = Raise (AssertionError "Agent must be provided")
       ∧ observation_space self agent
         = Raise (AssertionError "Agent must be provided"))
  ∧ (∀ a, agent = Some a → a ≠ "" → a ∉ possible_agents self
     → action_space self agent
       = Raise (AssertionError
                  ("agent must be one of "
                   +:+ list_repr (possible_agents self)))
       ∧ observation_space self agent
         = Raise (AssertionError
                    ("agent must be one of "
                     +:+ list_repr (possible_agents self)))).
Proof.
  rewrite <-!agent_checks_iff. unfold action_space, observation_space.
  split_and!.
  - destruct (agent_truthy agent), (agent_valid self agent); by simpl.
  - destruct (agent_truthy agent), (agent_valid self agent); by simpl.
  - by intros [-> | ->].
  - intros a -> Hne Hnot. simpl.
    rewrite (bool_decide_eq_true_2 (a ≠ "")) by done.
    by rewrite (bool_decide_eq_false_2 (a ∈ possible_agents self)).
Qed.

(** X5: the space [action_space] declares has the members of [Move()],
    yet [Move()] does not compare equal to it, while it compares equal to
    any other [Move], whatever that one's attributes are. *)
Theorem move_equals_only_moves self (a : string) (sp : Space) (m : Move.t) :
  action_space self (Some a) = Ok sp →
  (∀ x, space_contains sp x = Move.contains Move.init x)
  ∧ move_eq Move.init (OSpace sp) = false
  ∧ move_eq Move.init (OMove m) = true.
Proof.
  unfold action_space. intros Hsp.
  destruct (agent_truthy (Some a)), (agent_valid self (Some a));
    simpl in Hsp; try done.
  by injection Hsp as <-.
Qed.

(** X6: whatever the generator's state, a sampled move is a member of
    the [Move] space, provided [integers(n)] draws from [0, n). *)
Theorem move_sample_contained {G} (integers : Z → G → Z * G) (g : G) :
  (∀ n g, 0 < n → 0 ≤ (integers n g).1 < n) →
  Move.contains Move.init (VInt (move_sample integers Move.init g).1) = true
  ∧ (move_sample integers Move.init g).1 ∈ Move.possible_moves.
Proof.
  intros Hrange. unfold move_sample, Move.contains, discrete_contains.
  change (Move.n Move.init) with 4. change (Move.start Move.init) with 0.
  specialize (Hrange 4 g ltac:(lia)).
  destruct (integers 4 g) as [k g']. simpl in Hrange. simpl fst.
  split; [apply bool_decide_eq_true; lia|].
  unfold Move.possible_moves. rewrite !elem_of_cons, elem_of_nil. lia.
Qed.

End SpaceMethods.

(** ** More on [render] and [reset] *)

Section RenderReset.
Context {E : Engine}.
Implicit Types (w : World E).

(** X7: a mode other than "human", "ascii" and "color" fails the
    assertion before anything is done: nothing is printed, the engine is
    not called, and the world is as it was. *)
Theorem render_rejects_unknown_mode w (mode : string) :
  mode ∉ render_modes →
  render mode w
  = (Raise (AssertionError "Valid render modes are 'ascii' and 'color'"), w).
Proof.
  unfold render_modes. rewrite !not_elem_of_cons. intros (Ha & Hc & Hh & _).
  unfold render. by rewrite !bool_decide_eq_false_2.
Qed.

(** X8: whatever the seed, the shape asked for and the engine's answer,
    after [reset] the agents list is the full list of possible agents
    again; the other attributes keep their values, the options change in
    the seed at most, nothing is printed and the engine is called
    once. *)
Theorem reset_restores_agents w (s : option Z) (return_info : bool) :
  agents (self (reset s return_info w).2) = Some (possible_agents (self w))
  ∧ possible_agents (self (reset s return_info w).2) = possible_agents (self w)
  ∧ agent_name_mapping (self (reset s return_info w).2)
    = agent_name_mapping (self w)
  ∧ agent_selection (self (reset s return_info w).2) = agent_selection (self w)
  ∧ set_seed None (_options (self (reset s return_info w).2))
    = set_seed None (_options (self w))
  ∧ stdout (reset s return_info w).2 = stdout w
  ∧ calls (reset s return_info w).2 = (calls w ++ [CallReset])%list.
Proof. rewrite reset_unfold. by destruct (seed_truthy s). Qed.

(** X9: an exception of the engine's reset reaches the caller
    unchanged, but only after [self] has been written: the agents list
    and the seed are already those of the new episode. *)
Theorem reset_failure_is_not_atomic w (s : option Z) (return_info : bool)
    (e : Error) (es' : ES E) :
  env_reset E (set_seed (if seed_truthy s then s else None) (_options (self w)))
            (eng w) = (Raise e, es') →
  (reset s return_info w).1 = Raise e
  ∧ eng (reset s return_info w).2 = es'
  ∧ agents (self (reset s return_info w).2) = Some (possible_agents (self w))
  ∧ seed (_options (self (reset s return_info w).2))
    = (if seed_truthy s then s else None).
Proof.
  intros Hreset. rewrite reset_unfold. simpl.
  destruct (seed_truthy s); simpl in *; by rewrite Hreset.
Qed.

(** X10: [return_info] changes the shape of the result and nothing
    else: the same observations come back, paired with an empty [info]
    or alone, and the world afterwards is the same. *)
Theorem reset_return_info_only_shapes w (s : option Z) :
  (reset s true w).2 = (reset s false w).2
  ∧ (∀ obs, (reset s false w).1 = Ok (Plain obs)
            ↔ (reset s true w).1 = Ok (WithInfo obs ∅))
  ∧ (∀ e, (reset s false w).1 = Raise e ↔ (reset s true w).1 = Raise e).
Proof.
  rewrite !reset_unfold. simpl. split; [done|].
  destruct (env_reset E _ _) as [[obs'|e'] es']; simpl;
    split; intros ?; split; intros [= ->]; done.
Qed.

(** X11: a seed other than zero is stored in the options as given, and
    a reset without seed stores [None]. *)
Theorem reset_stores_given_seed w (s : option Z) (return_info : bool) :
  s ≠ Some 0 →
  seed (_options (self (reset s return_info w).2)) = s.
Proof.
  intros Hs. rewrite reset_unfold. simpl.
  destruct s as [z|]; simpl; [|done].
  case_bool_decide; [done|]. by subst.
Qed.

(** X12: a seed is not remembered: what a [reset] leaves in [self]
    depends on that call alone, not on the resets before it. *)
Theorem reset_forgets_earlier_seed w (s1 s2 : option Z) (r1 r2 : bool) :
  self (reset s2 r2 (reset s1 r1 w).2).2 = self (reset s2 r2 w).2.
Proof. rewrite !reset_unfold. by destruct (seed_truthy s1). Qed.

End RenderReset.

(** ** More on [step] *)

Section StepFrame.
Context {E : Engine}.
Implicit Types (w : World E) (action : option (gmap string (MoveV E))).

(** The worlds [step] can leave behind. *)
Lemma step_cases w action :
  (falsy action = true
   ∧ (step action w).2 = on_self (write_agents []) w)
  ∨ (falsy action = false
     ∧ ∃ es', (env_step E (moves_of action) (eng w)).2 = es'
        ∧ ((step action w).2 = logged CallStep es' w
           ∨ (step action w).2 = logged CallDone es' (logged CallStep es' w)
           ∨ (step action w).2
             = on_self (write_agents [])
                 (logged CallDone es' (logged CallStep es' w)))).
Proof.
  destruct (falsy action) eqn:Hf; [left|right]; split; try done.
  - by rewrite step_short.
  - destruct (env_step E (moves_of action) (eng w)) as [[res|e] es'] eqn:Hs.
    + exists es'. split; [done|].
      destruct (agents (self w)) as [live|] eqn:Hl.
      * rewrite (step_full w action live res es') by done. simpl.
        destruct (env_done E es'); auto.
      * rewrite (step_before_reset w action res es') by done. auto.
    + exists es'. split; [done|].
      rewrite (step_engine_raises w action e es') by done. auto.
Qed.

Lemma step_agents_shrink w action :
  agents (self (step action w).2) = agents (self w)
  ∨ agents (self (step action w).2) = Some [].
Proof.
  destruct (step_cases w action) as [[_ ->]|[_ (es' & _ & [->|[->| ->]])]];
    auto.
Qed.

(** X13: on the long path the truncations mapping has one entry,
    [False], for each agent that was in the agents list before the step,
    and no other entry, whatever agents the engine reports. *)
Theorem step_truncations_follow_agents w action live res es' :
  falsy action = false →
  agents (self w) = Some live →
  env_step E (moves_of action) (eng w) = (Ok res, es') →
  ∃ observations rewards dones truncations infos,
    (step action w).1
    = Ok (Return5 observations rewards dones truncations infos)
    ∧ dom truncations = list_to_set live
    ∧ ∀ a, truncations !! a = if bool_decide (a ∈ live) then Some false else None.
Proof.
  intros Hf Hlive Hstep. rewrite (step_full w action live res es') by done.
  eexists _, _, _, _, _. split; [done|].
  split; [|apply all_false_lookup].
  apply set_eq. intros a. rewrite elem_of_dom, all_false_lookup, elem_of_list_to_set.
  case_bool_decide; split; done.
Qed.

(** X14: a step with moves before the first [reset] fails with
    AttributeError for the missing [agents] attribute, but only after the
    engine has resolved the turn: the engine has moved on, and its
    done-check is never reached. *)
Theorem step_before_reset_resolves_then_fails w action res es' :
  falsy action = false →
  agents (self w) = None →
  env_step E (moves_of action) (eng w) = (Ok res, es') →
  (step action w).1 = Raise (AttributeError "agents")
  ∧ eng (step action w).2 = es'
  ∧ calls (step action w).2 = (calls w ++ [CallStep])%list
  ∧ self (step action w).2 = self w.
Proof.
  intros Hf Hnone Hstep.
  by rewrite (step_before_reset w action res es').
Qed.

(** X15: any exception of the engine's turn resolution, not only
    MissingMove, leaves [step] at once: it reaches the caller unchanged,
    [self] is not written and the done-check is not asked. *)
Theorem step_passes_engine_exception_on w action e es' :
  falsy action = false →
  env_step E (moves_of action) (eng w) = (Raise e, es') →
  (step action w).1 = Raise e
  ∧ self (step action w).2 = self w
  ∧ eng (step action w).2 = es'
  ∧ calls (step action w).2 = (calls w ++ [CallStep])%list.
Proof.
  intros Hf Hstep. by rewrite (step_engine_raises w action e es').
Qed.

(** X16: whatever its argument and outcome, [step] prints nothing and
    writes no attribute other than [agents], which it leaves alone or
    empties: it never puts an agent back. *)
Theorem step_writes_agents_only w action :
  possible_agents (self (step action w).2) = possible_agents (self w)
  ∧ agent_name_mapping (self (step action w).2) = agent_name_mapping (self w)
  ∧ agent_selection (self (step action w).2) = agent_selection (self w)
  ∧ _options (self (step action w).2) = _options (self w)
  ∧ stdout (step action w).2 = stdout w
  ∧ (agents (self (step action w).2) = agents (self w)
     ∨ agents (self (step action w).2) = Some []).
Proof.
  split_and!; try apply step_agents_shrink;
    destruct (step_cases w action) as [[_ ->]|[_ (es' & _ & [->|[->| ->]])]];
    done.
Qed.

(** X17: once the agents list is empty it stays empty through any
    sequence of steps, whatever they return; only [reset] refills it. *)
Theorem steps_keep_agents_empty w ms :
  agents (self w) = Some [] →
  agents (self (steps ms w).2) = Some [].
Proof.
  revert w. induction ms as [|m ms IH]; intros w Hw; [done|].
  simpl. unfold bind at 1.
  pose proof (step_agents_shrink w m) as Hshrink.
  destruct (step m w) as [[r|e] w1]; simpl in Hshrink.
  - specialize (IH w1). unfold bind.
    destruct (steps ms w1) as [[rs|e] w2]; simpl in *;
      apply IH; destruct Hshrink as [-> | ->]; done.
  - simpl. destruct Hshrink as [-> | ->]; done.
Qed.

(** X18: the engine is consulted exactly when the argument is a
    non-empty mapping, whatever its values are: a mapping of [None]
    markers counts.  Then the turn resolution is the first call made, and
    the done-check the only one that may follow. *)
Theorem step_calls_engine_iff_moves w action :
  (calls (step action w).2 = calls w ↔ falsy action = true)
  ∧ (falsy action = true ↔ action = None ∨ action = Some ∅)
  ∧ (calls (step action w).2 = calls w
     ∨ calls (step action w).2 = (calls w ++ [CallStep])%list
     ∨ calls (step action w).2 = (calls w ++ [CallStep; CallDone])%list).
Proof.
  assert (Hgrow : ∀ l : list Call, l ≠ [] → (calls w ++ l)%list ≠ calls w).
  { intros l Hl Heq. apply (f_equal length) in Heq.
    rewrite length_app in Heq. destruct l; [done|]. simpl in Heq. lia. }
  split_and!.
  - destruct (step_cases w action) as [[Hf ->]|[Hf (es' & _ & [->|[->| ->]])]];
      simpl; rewrite Hf; split; try done; intros Heq; exfalso.
    + by apply (Hgrow [CallStep]).
    + rewrite <-(assoc_L (++)) in Heq. by apply (Hgrow [CallStep; CallDone]).
    + rewrite <-(assoc_L (++)) in Heq. by apply (Hgrow [CallStep; CallDone]).
  - destruct action as [m|]; simpl.
    + rewrite bool_decide_eq_true. split; [by intros ->; right|].
      by intros [?|[= ->]].
    + split; [by left|done].
  - destruct (step_cases w action) as [[Hf ->]|[Hf (es' & _ & [->|[->| ->]])]];
      simpl; rewrite <-?(assoc_L (++)); auto.
Qed.

End StepFrame.

(** ** Replaying with a seed *)

Section ReplaySeeded.
Context {E : Engine}.
Implicit Types (w : World E).

(** X19: with a seed other than zero, and an engine whose seeded reset
    forgets what came before, the results of a session depend on the
    seed and the moves alone: not on what the engine held, nor on what an
    earlier episode left in the agents list or in the options' seed. *)
Theorem seeded_session_ignores_history
    (alike : ES E → ES E → Prop) w1 w2 (s : Z)
    (ms : list (option (gmap string (MoveV E)))) :
  (∀ o es1 es2, seed o ≠ None →
     (env_reset E o es1).1 = (env_reset E o es2).1
     ∧ (∀ obs, (env_reset E o es1).1 = Ok obs
               → alike (env_reset E o es1).2 (env_reset E o es2).2)) →
  (∀ moves es1 es2, alike es1 es2 →
     (env_step E moves es1).1 = (env_step E moves es2).1
     ∧ (∀ res, (env_step E moves es1).1 = Ok res
               → alike (env_step E moves es1).2 (env_step E moves es2).2)) →
  (∀ es1 es2, alike es1 es2 → env_done E es1 = env_done E es2) →
  s ≠ 0 →
  possible_agents (self w1) = possible_agents (self w2) →
  set_seed None (_options (self w1)) = set_seed None (_options (self w2)) →
  (session (Some s) ms w1).1 = (session (Some s) ms w2).1.
Proof. intros. by apply session_reproducible with alike. Qed.

End ReplaySeeded.

(** ** [make_env] *)

Section MakeEnv.
Context {A B : Type}.
Variable parallel_to_aec : BaseEnv → A.
Variable OrderEnforcingWrapper : A → B.
Implicit Types (metadata : gmap string meta_value).

(** X20: [make_env] writes the environment's name into the metadata of
    the class, "battlesnake-<map>-<type>_v0", and keeps the other
    entries; when construction fails, for want of agents, IndexError is
    passed on and the metadata is not written. *)
Theorem make_env_names_environment metadata
    width height num_agents (colors : list string) (game_map game_type : string) :
  (0 < num_agents →
     ∃ env, init width height num_agents colors game_map game_type = Ok env
       ∧ make_env parallel_to_aec OrderEnforcingWrapper
           width height num_agents colors game_map game_type metadata
         = (Ok (OrderEnforcingWrapper (parallel_to_aec env)),
            <["name" := MetaStr ("battlesnake-" +:+ game_map +:+ "-"
                                 +:+ game_type +:+ "_v0")]> metadata))
  ∧ (num_agents ≤ 0 →
     make_env parallel_to_aec OrderEnforcingWrapper
       width height num_agents colors game_map game_type metadata
     = (Raise IndexError, metadata)).
Proof.
  unfold make_env, bind, construct, set_metadata, ret, init.
  destruct (Z.to_nat num_agents) as [|k] eqn:Hn; simpl; split; intros Hlt;
    try lia; try done.
  eexists. split; reflexivity.
Qed.

(** X21: the name is that of the environment made last: the metadata is
    one dictionary for the class, so making a second environment renames
    the first as well. *)
Theorem make_env_last_name_wins metadata
    w1 h1 n1 (c1 : list string) (m1 t1 : string)
    w2 h2 n2 (c2 : list string) (m2 t2 : string) :
  0 < n2 →
  (make_env parallel_to_aec OrderEnforcingWrapper w2 h2 n2 c2 m2 t2
     (make_env parallel_to_aec OrderEnforcingWrapper w1 h1 n1 c1 m1 t1
        metadata).2).2
  = (make_env parallel_to_aec OrderEnforcingWrapper w2 h2 n2 c2 m2 t2
       metadata).2
  ∧ (make_env parallel_to_aec OrderEnforcingWrapper w2 h2 n2 c2 m2 t2
       (make_env parallel_to_aec OrderEnforcingWrapper w1 h1 n1 c1 m1 t1
          metadata).2).2 !! "name"
    = Some (MetaStr ("battlesnake-" +:+ m2 +:+ "-" +:+ t2 +:+ "_v0")).
Proof.
  intros Hn2.
  unfold make_env, bind, construct, set_metadata, ret, init.
  destruct (Z.to_nat n2) as [|k2] eqn:H2; [lia|].
  destruct (Z.to_nat n1) as [|k1] eqn:H1; simpl.
  - split; [done|]. by rewrite lookup_insert_eq.
  - rewrite insert_insert_eq. split; [done|]. by rewrite lookup_insert_eq.
Qed.

End MakeEnv.

(** ** The added properties on concrete runs *)

Lemma raised_eq {A S} (p : outcome A * S) (e : Error) :
  raised e p.1 = true → p = (Raise e, p.2).
Proof.
  destruct p as [[a|e'] s]; simpl; [done|].
  rewrite bool_decide_eq_true. by intros ->.
Qed.

Section MoreRuns.
Import Reference Sample Trial.

(** The reference engine's seeded reset, its turns and its done-check
    look at the game alone. *)
Lemma reference_reset_forgets (o : BattlesnakeOptions) (st1 st2 : State) :
  seed o ≠ None →
  (env_reset engine o st1).1 = (env_reset engine o st2).1
  ∧ (∀ obs, (env_reset engine o st1).1 = Ok obs
            → game (env_reset engine o st1).2 = game (env_reset engine o st2).2).
Proof.
  intros Hseed. simpl. unfold ref_reset.
  destruct (seed o) as [z|]; [|done].
  destruct (configure o z) as [[obs|e] [g|]] eqn:Hc; simpl; split; try done.
  unfold configure in Hc. case_bool_decide; [done|].
  by destruct (refill _ _).
Qed.

Lemma reference_step_by_game (moves : gmap string value) (st1 st2 : State) :
  game st1 = game st2 →
  (env_step engine moves st1).1 = (env_step engine moves st2).1
  ∧ (∀ res, (env_step engine moves st1).1 = Ok res
            → game (env_step engine moves st1).2
              = game (env_step engine moves st2).2).
Proof.
  intros Hg. simpl. unfold ref_step. rewrite Hg.
  by destruct (resolve moves (game st2)).
Qed.

Lemma reference_done_by_game (st1 st2 : State) :
  game st1 = game st2 → env_done engine st1 = env_done engine st2.
Proof. intros Hg. simpl. by rewrite Hg. Qed.

(** The second agent of the two-agent environment. *)
Lemma init_agents_distinct_witness :
  init 7 7 2 [] "standard" "standard" = Ok duo
  ∧ length (possible_agents duo) = 2%nat
  ∧ NoDup (possible_agents duo)
  ∧ possible_agents duo !! 0%nat = Some (agent_selection duo).
Proof.
  assert (H1 : init 7 7 2 [] "standard" "standard" = Ok duo)
    by (vm_compute; reflexivity).
  split; [assumption|].
  destruct (init_agents_distinct _ _ _ _ _ _ _ H1)
    as (Hlen & Hnd & _ & Hsel & _).
  split; [exact Hlen|]. split; [exact Hnd|exact Hsel].
Defined.

Lemma agent_name_mapping_inverts_index_witness :
  init 7 7 2 [] "standard" "standard" = Ok duo
  ∧ (agent_name_mapping duo !! "agent_1" = Some 1%nat
     ↔ possible_agents duo !! 1%nat = Some "agent_1").
Proof.
  assert (H1 : init 7 7 2 [] "standard" "standard" = Ok duo)
    by (vm_compute; reflexivity).
  split; [assumption|].
  apply (agent_name_mapping_inverts_index _ _ _ _ _ _ duo "agent_1" 1%nat H1).
Defined.

Lemma move_equals_only_moves_witness :
  action_space duo (Some "agent_1") = Ok (Discrete 4 0)
  ∧ space_contains (Discrete 4 0) (VInt 2) = Move.contains Move.init (VInt 2)
  ∧ move_eq Move.init (OSpace (Discrete 4 0)) = false.
Proof.
  assert (H1 : action_space duo (Some "agent_1") = Ok (Discrete 4 0))
    by (vm_compute; reflexivity).
  split; [assumption|].
  destruct (move_equals_only_moves duo "agent_1" (Discrete 4 0) Move.init H1)
    as (Hc & Hne & _).
  split; [apply Hc|exact Hne].
Defined.

Lemma move_sample_contained_witness :
  (∀ n g, 0 < n → 0 ≤ (lcg n g).1 < n)
  ∧ Move.contains Move.init (VInt (move_sample lcg Move.init 7).1) = true.
Proof.
  assert (H1 : ∀ n g, 0 < n → 0 ≤ (lcg n g).1 < n).
  { intros n g Hn. simpl. apply Z.mod_pos_bound. lia. }
  split; [assumption|].
  apply (move_sample_contained lcg 7 H1).
Defined.

Lemma render_rejects_unknown_mode_witness :
("rgb_array" ∉ render_modes)
  ∧ render "rgb_array" started
    = (Raise (AssertionError "Valid render modes are 'ascii' and 'color'"),
       started).
Proof.
  assert (H1 : "rgb_array" ∉ render_modes)
    by (apply (bool_decide_unpack _); vm_compute; exact I).
  split; [assumption|].
  apply (render_rejects_unknown_mode started "rgb_array" H1).
Defined.

(** A board of width 0 is refused by the reference engine. *)
Lemma reset_failure_is_not_atomic_witness :
  raised InvalidConfiguration
    (env_reset engine (set_seed None (_options flat)) (eng (boot flat []))).1
  = true
  ∧ (reset None true (boot flat [])).1 = Raise InvalidConfiguration
  ∧ agents (self (reset None true (boot flat [])).2) = Some ["agent_0"].
Proof.
  assert (H1 : raised InvalidConfiguration
                 (env_reset engine (set_seed None (_options flat))
                    (eng (boot flat []))).1 = true)
    by (vm_compute; reflexivity).
  split; [assumption|].
  destruct (reset_failure_is_not_atomic (boot flat []) None true
              InvalidConfiguration _ (raised_eq _ _ H1))
    as (Hr & _ & Ha & _).
  split; [exact Hr|exact Ha].
Defined.

Lemma reset_stores_given_seed_witness :
  Some 42 ≠ Some 0
  ∧ seed (_options (self (reset (Some 42) true unborn).2)) = Some 42.
Proof.
  assert (H1 : Some 42 ≠ Some 0) by discriminate.
  split; [assumption|].
  apply (reset_stores_given_seed unborn (Some 42) true H1).
Defined.

Lemma step_truncations_follow_agents_witness :
  falsy (Some both_up) = false
  ∧ agents (self started) = Some ["agent_0"; "agent_1"]
  ∧ succeeded (env_step engine both_up (eng started)).1 = true
  ∧ ∃ observations rewards dones truncations infos,
      (step (Some both_up) started).1
      = Ok (Return5 observations rewards dones truncations infos)
      ∧ truncations !! "agent_1" = Some false
      ∧ truncations !! "agent_2" = None.
Proof.
  assert (H1 : falsy (Some both_up) = false) by (vm_compute; reflexivity).
  assert (H2 : agents (self started) = Some ["agent_0"; "agent_1"])
    by (vm_compute; reflexivity).
  assert (H3 : succeeded (env_step engine both_up (eng started)).1 = true)
    by (vm_compute; reflexivity).
  repeat (split; [assumption|]).
  destruct (step_truncations_follow_agents started (Some both_up) _ _ _
              H1 H2 (succeeded_eq _ ∅ H3))
    as (o & r & d & t & i & Hstep & _ & Hall).
  exists o, r, d, t, i. split; [exact Hstep|].
  split; [exact (Hall "agent_1")|exact (Hall "agent_2")].
Defined.

Lemma step_before_reset_resolves_then_fails_witness :
  falsy (Some both_up) = false
  ∧ agents (self unborn) = None
  ∧ succeeded (env_step engine both_up (eng unborn)).1 = true
  ∧ (step (Some both_up) unborn).1 = Raise (AttributeError "agents")
  ∧ calls (step (Some both_up) unborn).2 = [CallStep].
Proof.
  assert (H1 : falsy (Some both_up) = false) by (vm_compute; reflexivity).
  assert (H2 : agents (self unborn) = None) by (vm_compute; reflexivity).
  assert (H3 : succeeded (env_step engine both_up (eng unborn)).1 = true)
    by (vm_compute; reflexivity).
  repeat (split; [assumption|]).
  destruct (step_before_reset_resolves_then_fails unborn (Some both_up) _ _
              H1 H2 (succeeded_eq _ ∅ H3))
    as (Hr & _ & Hc & _).
  split; [exact Hr|exact Hc].
Defined.

Lemma step_passes_engine_exception_on_witness :
  falsy (Some first_up) = false
  ∧ raised MissingMove (env_step engine first_up (eng started)).1 = true
  ∧ (step (Some first_up) started).1 = Raise MissingMove
  ∧ self (step (Some first_up) started).2 = self started.
Proof.
  assert (H1 : falsy (Some first_up) = false) by (vm_compute; reflexivity).
  assert (H2 : raised MissingMove (env_step engine first_up (eng started)).1
               = true) by (vm_compute; reflexivity).
  repeat (split; [assumption|]).
  destruct (step_passes_engine_exception_on started (Some first_up) _ _
              H1 (raised_eq _ _ H2))
    as (Hr & Hs & _).
  split; [exact Hr|exact Hs].
Defined.

Lemma steps_keep_agents_empty_witness :
  agents (self stopped) = Some []
  ∧ agents (self (steps [Some both_up; None; Some first_up] stopped).2)
    = Some [].
Proof.
  assert (H1 : agents (self stopped) = Some []) by (vm_compute; reflexivity).
  split; [assumption|].
  apply (steps_keep_agents_empty stopped _ H1).
Defined.

(** Two processes with different entropy and different leftovers. *)
Lemma seeded_session_ignores_history_witness :
  (42 ≠ 0)
  ∧ possible_agents (self (boot duo [1])) = possible_agents (self stopped)
  ∧ set_seed None (_options (self (boot duo [1])))
    = set_seed None (_options (self stopped))
  ∧ (session (Some 42) [Some both_up; Some both_up] (boot duo [1])).1
    = (session (Some 42) [Some both_up; Some both_up] stopped).1.
Proof.
  assert (H1 : 42 ≠ 0) by lia.
  assert (H2 : possible_agents (self (boot duo [1]))
               = possible_agents (self stopped)) by (vm_compute; reflexivity).
  assert (H3 : set_seed None (_options (self (boot duo [1])))
               = set_seed None (_options (self stopped)))
    by (vm_compute; reflexivity).
  repeat (split; [assumption|]).
  apply (seeded_session_ignores_history (E:=engine)
           (λ st1 st2 : State, game st1 = game st2)
           (boot duo [1]) stopped 42 _
           reference_reset_forgets reference_step_by_game
           reference_done_by_game H1 H2 H3).
Defined.

Lemma make_env_last_name_wins_witness :
  0 < 1
  ∧ (make_env id id 7 7 1 [] "standard" "solo"
       (make_env id id 11 11 4 [] "standard" "standard"
          metadata_of_class).2).2 !! "name"
    = Some (MetaStr "battlesnake-standard-solo_v0").
Proof.
  assert (H1 : 0 < 1) by lia.
  split; [assumption|].
  apply (make_env_last_name_wins id id metadata_of_class
           11 11 4 [] "standard" "standard" 7 7 1 [] "standard" "solo" H1).
Defined.

(** C3, counterexample: on an environment that has not been reset, a
    non-empty moves mapping is resolved by the engine, and [step] raises
    AttributeError for the missing [agents] attribute instead of
    returning the engine's results. *)
Lemma step_without_reset_returns_nothing :
  init 7 7 2 [] "standard" "standard" = Ok (self unborn)
  ∧ falsy (Some both_up) = false
  ∧ succeeded (env_step engine both_up (eng unborn)).1 = true
  ∧ (step (Some both_up) unborn).1 = Raise (AttributeError "agents")
  ∧ ∀ observations rewards dones truncations infos,
      (step (Some both_up) unborn).1
      ≠ Ok (Return5 observations rewards dones truncations infos).
Proof.
  assert (H1 : falsy (Some both_up) = false) by (vm_compute; reflexivity).
  assert (H2 : agents (self unborn) = None) by (vm_compute; reflexivity).
  assert (H3 : succeeded (env_step engine both_up (eng unborn)).1 = true)
    by (vm_compute; reflexivity).
  split; [vm_compute; reflexivity|].
  repeat (split; [assumption|]).
  rewrite (step_before_reset unborn (Some both_up) _ _
             H1 H2 (succeeded_eq _ ∅ H3)).
  split; [reflexivity|]. intros o r d t i. discriminate.
Qed.

(** A name that is not an agent's, and the message as it is printed. *)
Lemma space_methods_accept_known_agents_witness :
("ghost" ∉ possible_agents duo)
  ∧ action_space duo (Some "ghost")
    = Raise (AssertionError
               "agent must be one of ['agent_0', 'agent_1']")
  ∧ observation_space duo (Some "ghost")
    = Raise (AssertionError
               "agent must be one of ['agent_0', 'agent_1']").
Proof.
  assert (H1 : "ghost" ∉ possible_agents duo)
    by (apply (bool_decide_unpack _); vm_compute; exact I).
  split; [assumption|].
  destruct (space_methods_accept_known_agents duo (Some "ghost"))
    as (_ & _ & _ & Hmsg).
  apply (Hmsg "ghost" eq_refl ltac:(discriminate) H1).
Defined.


End MoreRuns.
